(** * rosa-flowers-admin: the admin dashboard's view logic, embedded in Rocq

  The dashboard is a set of React components.  Each component is
  embedded as a record of its [useState] cells, its event handlers as
  functions from a state (and the replies of the REST server) to the
  next state and the list of HTTP requests issued, and the parts of its
  render function that decide which controls exist.

  Conventions of the embedding:
  - a JS [string] is the Rocq [string] of the bytes of its UTF-8
    encoding (a Cyrillic letter is two bytes, U+2028 is three); a string
    with an unpaired surrogate has no encoding and is not embedded; an
    optional or nullable field is an [option];
  - a JS [number] that holds an identifier, a price or a point balance
    is a [Z]; where a theorem depends on the arithmetic it keeps to the
    safe integers, on which the doubles of JS are exact;
  - an object literal used as a dictionary is a [gmap] over its own
    keys; where the key comes from the data, the lookup also sees what
    the object inherits from [Object.prototype];
  - [String.prototype.toLowerCase], whose Unicode tables are no part of
    the repository, is a parameter ([Js.Engine]): a component is embedded
    over whatever function stands in its place;
  - an [await]ed request is answered by a [Server] oracle with a
    [reply]: [Ok data] when the promise resolves, [Err e] when it
    rejects; a handler runs to completion before the next event. *)

From Stdlib Require Import ZArith Ascii String List Bool.
From stdpp Require Import base decidable option list strings pretty gmap.

Local Open Scope string_scope.
Local Open Scope Z_scope.

(** ** The JavaScript built-ins the components use *)

Module Js.

(** [Boolean(s)] for a string: only the empty string is falsy. *)
Definition truthy (s : string) : bool :=
  match s with
  | EmptyString => false
  | String _ _ => true
  end.

(** [x || d] where [x] is a string that may be [undefined] or [null]. *)
Definition orElse (x : option string) (d : string) : string :=
  match x with
  | Some s => if truthy s then s else d
  | None => d
  end.

(** White space as [String.prototype.trim] strips it (the WhiteSpace
    and LineTerminator code points), each by the bytes of its encoding:
    TAB, LF, VT, FF, CR and SPACE in one byte; U+00A0 in two; U+1680,
    U+2000 to U+200A, U+2028, U+2029, U+202F, U+205F, U+3000 and U+FEFF
    in three. *)
Definition isSpace (c : ascii) : bool :=
  let n := nat_of_ascii c in
  (n =? 32)%nat || ((9 <=? n)%nat && (n <=? 13)%nat).

Definition isSpace2 (c1 c2 : ascii) : bool :=
  (nat_of_ascii c1 =? 194)%nat && (nat_of_ascii c2 =? 160)%nat.

Definition isSpace3 (c1 c2 c3 : ascii) : bool :=
  let n1 := nat_of_ascii c1 in
  let n2 := nat_of_ascii c2 in
  let n3 := nat_of_ascii c3 in
  ((n1 =? 225) && (n2 =? 154) && (n3 =? 128))%nat
  || ((n1 =? 226) && (n2 =? 128)
      && (((128 <=? n3) && (n3 <=? 138)) || (n3 =? 168) || (n3 =? 169)
          || (n3 =? 175)))%nat
  || ((n1 =? 226) && (n2 =? 129) && (n3 =? 159))%nat
  || ((n1 =? 227) && (n2 =? 128) && (n3 =? 128))%nat
  || ((n1 =? 239) && (n2 =? 187) && (n3 =? 191))%nat.

(** The rest of a string after the white-space character it starts
    with, if it starts with one. *)
Definition afterSpace (s : string) : option string :=
  match s with
  | String c1 s1 =>
      if isSpace c1 then Some s1
      else
        match s1 with
        | String c2 s2 =>
            if isSpace2 c1 c2 then Some s2
            else
              match s2 with
              | String c3 s3 => if isSpace3 c1 c2 c3 then Some s3 else None
              | EmptyString => None
              end
        | EmptyString => None
        end
  | EmptyString => None
  end.

(** [s.trimStart()]: drop white-space characters while the string starts
    with one. *)
Fixpoint trimStart (s : string) : string :=
  match s with
  | String c1 s1 =>
      if isSpace c1 then trimStart s1
      else
        match s1 with
        | String c2 s2 =>
            if isSpace2 c1 c2 then trimStart s2
            else
              match s2 with
              | String c3 s3 => if isSpace3 c1 c2 c3 then trimStart s3 else s
              | EmptyString => s
              end
        | EmptyString => s
        end
  | EmptyString => s
  end.

(** A string that is empty or is made of white-space characters only. *)
Fixpoint isBlank (s : string) : bool :=
  match s with
  | String c1 s1 =>
      if isSpace c1 then isBlank s1
      else
        match s1 with
        | String c2 s2 =>
            if isSpace2 c1 c2 then isBlank s2
            else
              match s2 with
              | String c3 s3 => isSpace3 c1 c2 c3 && isBlank s3
              | EmptyString => false
              end
        | EmptyString => false
        end
  | EmptyString => true
  end.

(** [s.trimEnd()]: cut the string where what follows is white space
    only. *)
Fixpoint trimEnd (s : string) : string :=
  match s with
  | EmptyString => EmptyString
  | String c s' => if isBlank s then EmptyString else String c (trimEnd s')
  end.

(** [s.trim()] *)
Definition trim (s : string) : string := trimEnd (trimStart s).

(** Whether a string starts, respectively ends, with a white-space
    character ([false] for the empty string). *)
Definition startsWithSpace (s : string) : bool :=
  bool_decide (is_Some (afterSpace s)).

Fixpoint endsWithSpace (s : string) : bool :=
  match s with
  | EmptyString => false
  | String _ s' =>
      bool_decide (afterSpace s = Some EmptyString) || endsWithSpace s'
  end.

(** The host's [String.prototype.toLowerCase].  It follows the case
    tables of Unicode and looks at the letters around a capital sigma, so
    it is neither a map over the characters nor a morphism for
    concatenation; the components are embedded over any function in its
    place, and what is proved of them holds for each. *)
Class Engine := { toLowerCase : string -> string }.

(** The letters [A]-[Z] are mapped to [a]-[z]; every other byte is
    kept. *)
Definition lowerChar (c : ascii) : ascii :=
  let n := nat_of_ascii c in
  if (65 <=? n)%nat && (n <=? 90)%nat then ascii_of_nat (n + 32) else c.

(** Lower-casing of the ASCII letters only: what [toLowerCase] does on a
    string of ASCII characters, and how the router compares the letters
    of a path. *)
Fixpoint asciiLowerCase (s : string) : string :=
  match s with
  | EmptyString => EmptyString
  | String c s' => String (lowerChar c) (asciiLowerCase s')
  end.

(** The engine the examples run on; they keep to ASCII text, where it is
    the built-in. *)
#[global] Instance asciiEngine : Engine := {| toLowerCase := asciiLowerCase |}.

(** [s.startsWith(q)] *)
Fixpoint startsWith (s q : string) : bool :=
  match q, s with
  | EmptyString, _ => true
  | String _ _, EmptyString => false
  | String b q', String a s' => Ascii.eqb a b && startsWith s' q'
  end.

(** [s.includes(q)]: [q] occurs in [s] as a contiguous substring. *)
Fixpoint includes (s q : string) : bool :=
  startsWith s q ||
  match s with
  | EmptyString => false
  | String _ s' => includes s' q
  end.

(** [l.filter(Boolean)] on a list of possibly missing strings. *)
Fixpoint filterBoolean (l : list (option string)) : list string :=
  match l with
  | [] => []
  | Some s :: l' => if truthy s then s :: filterBoolean l' else filterBoolean l'
  | None :: l' => filterBoolean l'
  end.

(** [l.join(sep)] *)
Fixpoint join (sep : string) (l : list string) : string :=
  match l with
  | [] => EmptyString
  | [s] => s
  | s :: l' => s ++ sep ++ join sep l'
  end.

(** [String(n)] for an integer. *)
Definition toString (n : Z) : string := pretty n.

End Js.

(** ** Replies of the REST server, as axios reports them *)

Module Http.

(** The body of an error response, as far as the handlers read it. *)
Record Body := { error : option string; message : option string }.

Record Response := { data : option Body }.

(** What a rejected axios promise carries: [err.response] is missing on
    a network failure. *)
Record AxiosError := { response : option Response }.

Inductive reply (A : Type) : Type :=
| Ok (d : A)
| Err (e : AxiosError).
Arguments Ok {A} d.
Arguments Err {A} e.

(** [err.response?.data?.error] *)
Definition errorField (e : AxiosError) : option string :=
  r ← response e; b ← data r; error b.

(** [err.response?.data?.message] *)
Definition messageField (e : AxiosError) : option string :=
  r ← response e; b ← data r; message b.

End Http.

(** ** Orders page *)

Module OrderUser.
Record t := {
  id : Z;
  firstName : string;
  lastName : option string;
  username : option string;
  phone : option string;
  telegramId : string;
}.
End OrderUser.

Module OrderAddress.
Record t := {
  id : Z;
  title : string;
  street : string;
  house : string;
  apartment : option string;
  entrance : option string;
  floor : option string;
}.
End OrderAddress.

Module OrderItem.
Record t := {
  id : Z;
  name : string;
  price : Z;
  quantity : Z;
}.
End OrderItem.

Module Order.
Record t := {
  id : Z;
  user : OrderUser.t;
  address : option OrderAddress.t;
  items : list OrderItem.t;
  status : string;
  deliveryType : string;
  deliveryDate : option string;
  deliveryTime : option string;
  recipientName : option string;
  recipientPhone : option string;
  isAnonymous : bool;
  cardText : option string;
  comment : option string;
  totalPrice : Z;
  bonusUsed : Z;
  bonusEarned : Z;
  paymentStatus : string;
  createdAt : string;
}.

(** [{ ...o, status: s }] *)
Definition withStatus (o : t) (s : string) : t :=
  {| id := id o; user := user o; address := address o; items := items o;
     status := s;
     deliveryType := deliveryType o; deliveryDate := deliveryDate o;
     deliveryTime := deliveryTime o; recipientName := recipientName o;
     recipientPhone := recipientPhone o; isAnonymous := isAnonymous o;
     cardText := cardText o; comment := comment o;
     totalPrice := totalPrice o; bonusUsed := bonusUsed o;
     bonusEarned := bonusEarned o; paymentStatus := paymentStatus o;
     createdAt := createdAt o |}.
End Order.

Module Orders.
Import Http.

Definition statuses : list string :=
  ["all"; "new"; "confirmed"; "preparing"; "delivering"; "completed"; "canceled"].

(** The workflow table, an object literal keyed by the current status. *)
Definition nextStatuses : gmap string (list string) :=
  list_to_map
    [ ("new", ["confirmed"; "canceled"]);
      ("confirmed", ["preparing"; "canceled"]);
      ("preparing", ["delivering"; "canceled"]);
      ("delivering", ["completed"; "canceled"]);
      ("completed", []);
      ("canceled", []) ].

(** What reading a property of such an object literal can give: one of
    its own arrays, a member inherited from [Object.prototype] (a
    function, or the prototype object itself for [__proto__]), or
    [undefined]. *)
Inductive JsValue :=
| Undefined
| StringArray (items : list string)
| Function (arity : nat)
| PlainObject.

(** The members of [Object.prototype]; a function is recorded with its
    [length]. *)
Definition objectPrototype : gmap string JsValue :=
  list_to_map
    [ ("constructor", Function 1);
      ("__defineGetter__", Function 2);
      ("__defineSetter__", Function 2);
      ("hasOwnProperty", Function 1);
      ("__lookupGetter__", Function 1);
      ("__lookupSetter__", Function 1);
      ("isPrototypeOf", Function 1);
      ("propertyIsEnumerable", Function 1);
      ("toString", Function 0);
      ("valueOf", Function 0);
      ("__proto__", PlainObject);
      ("toLocaleString", Function 0) ].

(** [nextStatuses[key]]: an own key first, then the prototype. *)
Definition getProperty (key : string) : JsValue :=
  match nextStatuses !! key with
  | Some l => StringArray l
  | None => default Undefined (objectPrototype !! key)
  end.

(** What evaluating a piece of JSX gives: its content, or an exception
    that takes the page down. *)
Inductive Rendered (A : Type) : Type :=
| Shown (content : A)
| Throws.
Arguments Shown {A} content.
Arguments Throws {A}.

(** The six statuses of the workflow, and the transition table as the
    specification (section 4.1) words it, to compare [nextStatuses]
    with. *)
Definition workflow : list string :=
  ["new"; "confirmed"; "preparing"; "delivering"; "completed"; "canceled"].

Definition allowedNext (status : string) : list string :=
  if String.eqb status "new" then ["confirmed"; "canceled"]
  else if String.eqb status "confirmed" then ["preparing"; "canceled"]
  else if String.eqb status "preparing" then ["delivering"; "canceled"]
  else if String.eqb status "delivering" then ["completed"; "canceled"]
  else [].

(** The [useState] cells of the component. *)
Record State := {
  orders : list Order.t;
  loading : bool;
  activeTab : string;
  updatingId : option Z;
  error : string;
  search : string;
  selectedOrder : option Order.t;
}.

Definition initial : State :=
  {| orders := []; loading := true; activeTab := "all"; updatingId := None;
     error := EmptyString; search := EmptyString; selectedOrder := None |}.

Definition setOrders (v : list Order.t) (st : State) : State :=
  {| orders := v; loading := loading st; activeTab := activeTab st;
     updatingId := updatingId st; error := error st; search := search st;
     selectedOrder := selectedOrder st |}.
Definition setLoading (v : bool) (st : State) : State :=
  {| orders := orders st; loading := v; activeTab := activeTab st;
     updatingId := updatingId st; error := error st; search := search st;
     selectedOrder := selectedOrder st |}.
Definition setActiveTab (v : string) (st : State) : State :=
  {| orders := orders st; loading := loading st; activeTab := v;
     updatingId := updatingId st; error := error st; search := search st;
     selectedOrder := selectedOrder st |}.
Definition setUpdatingId (v : option Z) (st : State) : State :=
  {| orders := orders st; loading := loading st; activeTab := activeTab st;
     updatingId := v; error := error st; search := search st;
     selectedOrder := selectedOrder st |}.
Definition setError (v : string) (st : State) : State :=
  {| orders := orders st; loading := loading st; activeTab := activeTab st;
     updatingId := updatingId st; error := v; search := search st;
     selectedOrder := selectedOrder st |}.
Definition setSearch (v : string) (st : State) : State :=
  {| orders := orders st; loading := loading st; activeTab := activeTab st;
     updatingId := updatingId st; error := error st; search := v;
     selectedOrder := selectedOrder st |}.
Definition setSelectedOrder (v : option Order.t) (st : State) : State :=
  {| orders := orders st; loading := loading st; activeTab := activeTab st;
     updatingId := updatingId st; error := error st; search := search st;
     selectedOrder := v |}.

(** The requests the page sends. *)
Inductive Request :=
| GetOrders (status : option string)          (* GET /orders?status=.. *)
| PutOrderStatus (orderId : Z) (status : string) (* PUT /orders/{id}/status *)
| GetOrder (orderId : Z).                     (* GET /orders/{id} *)

(** The server's answer to each request. *)
Record Server := {
  getOrders : option string -> reply (list Order.t);
  putOrderStatus : Z -> string -> reply unit;
  getOrder : Z -> reply Order.t;
}.

Definition loadFailed : string := "Не удалось загрузить заказы".

Definition fetchOrders (srv : Server) (status : string) (st : State)
  : State * list Request :=
  let st := setError EmptyString (setLoading true st) in
  let params := if String.eqb status "all" then None else Some status in
  let st :=
    match getOrders srv params with
    | Ok d => setOrders d st
    | Err _ => setError loadFailed st
    end in
  (setLoading false st, [GetOrders params]).

Definition updateFailed (orderId : Z) : string :=
  "Не удалось обновить статус заказа #" ++ Js.toString orderId.

(** [selectedOrder?.id === orderId] *)
Definition isSelected (st : State) (orderId : Z) : bool :=
  match selectedOrder st with
  | Some o => Order.id o =? orderId
  | None => false
  end.

Definition handleStatusChange (srv : Server) (orderId : Z) (newStatus : string)
    (st : State) : State * list Request :=
  let st := setError EmptyString (setUpdatingId (Some orderId) st) in
  let put := PutOrderStatus orderId newStatus in
  match putOrderStatus srv orderId newStatus with
  | Ok _ =>
      let selected := isSelected st orderId in
      let '(st, fetched) := fetchOrders srv (activeTab st) st in
      if selected then
        let st :=
          match getOrder srv orderId with
          | Ok d => setSelectedOrder (Some d) st
          | Err _ =>
              setSelectedOrder
                (match selectedOrder st with
                 | Some prev => Some (Order.withStatus prev newStatus)
                 | None => None
                 end) st
          end in
        (setUpdatingId None st, put :: fetched ++ [GetOrder orderId])
      else (setUpdatingId None st, put :: fetched)
  | Err err =>
      let st := setError (Js.orElse (errorField err) (updateFailed orderId)) st in
      (setUpdatingId None st, [put])
  end.

Definition customerName (o : Order.t) : string :=
  Js.join " "
    (Js.filterBoolean
       [Some (OrderUser.firstName (Order.user o)); OrderUser.lastName (Order.user o)]).

(** The predicate passed to [orders.filter]. *)
Definition matches {engine : Js.Engine} (search : string) (o : Order.t) : bool :=
  if negb (Js.truthy (Js.trim search)) then true
  else
    let q := Js.toLowerCase search in
    let name := Js.toLowerCase (customerName o) in
    Js.includes ("#" ++ Js.toString (Order.id o)) q
    || Js.includes (Js.toString (Order.id o)) q
    || Js.includes name q
    || Js.includes (Js.orElse (OrderUser.phone (Order.user o)) EmptyString) q
    || Js.includes (Js.orElse (Order.recipientPhone o) EmptyString) q.

Definition filtered {engine : Js.Engine} (st : State) : list Order.t :=
  List.filter (matches (search st)) (orders st).

(** [nextStatuses[status]?.length > 0 && nextStatuses[status].map(..)]:
    one control per status of the array when the guard holds, nothing
    when it does not ([undefined > 0] is false); an inherited function
    of positive [length] passes the guard and has no [map], so the call
    throws a [TypeError]. *)
Definition controls (status : string) : Rendered (list string) :=
  match getProperty status with
  | StringArray l => Shown (if (0 <? length l)%nat then l else [])
  | Function arity => if (0 <? arity)%nat then Throws else Shown []
  | PlainObject => Shown []
  | Undefined => Shown []
  end.

(** The statuses a control of the page offers: those of [controls], and
    none where rendering them throws. *)
Definition offered (status : string) : list string :=
  match controls status with
  | Shown l => l
  | Throws => []
  end.

(** The [value]s of the [<option>]s of a table row's [<select>]: the
    placeholder and one per offered status; no [<select>] is rendered
    when nothing is offered. *)
Definition selectOptions (o : Order.t) : list string :=
  match offered (Order.status o) with
  | [] => []
  | l => EmptyString :: l
  end.

(** The buttons of the detail modal, by the status each one requests. *)
Definition modalButtons (sel : Order.t) : list string :=
  offered (Order.status sel).

(** What the user can do on the page. *)
Inductive Event :=
| TabClick (status : string)
| SearchInput (text : string)
| RowClick (row : nat)
| SelectChange (row : nat) (value : string)
| ModalButtonClick (status : string)
| ModalClose.

Definition isUpdating (st : State) (orderId : Z) : bool :=
  match updatingId st with
  | Some i => i =? orderId
  | None => false
  end.

(** An event can be delivered only by a control that is rendered and
    not disabled; a [<select>] reports the value of one of its
    options. *)
Definition enabled {engine : Js.Engine} (st : State) (ev : Event) : bool :=
  match ev with
  | TabClick s => bool_decide (s ∈ statuses)
  | SearchInput _ => true
  | RowClick row =>
      negb (loading st) && bool_decide (is_Some (filtered st !! row))
  | SelectChange row value =>
      negb (loading st) &&
      match filtered st !! row with
      | Some o => negb (isUpdating st (Order.id o))
                  && bool_decide (value ∈ selectOptions o)
      | None => false
      end
  | ModalButtonClick s =>
      match selectedOrder st with
      | Some sel => negb (isUpdating st (Order.id sel))
                    && bool_decide (s ∈ modalButtons sel)
      | None => false
      end
  | ModalClose => bool_decide (is_Some (selectedOrder st))
  end.

(** The event handlers, as the JSX attaches them. *)
Definition handle {engine : Js.Engine} (srv : Server) (st : State) (ev : Event)
  : State * list Request :=
  match ev with
  | TabClick s =>
      if String.eqb s (activeTab st) then (st, [])
      else fetchOrders srv s (setActiveTab s st)
  | SearchInput text => (setSearch text st, [])
  | RowClick row =>
      match filtered st !! row with
      | Some o => (setSelectedOrder (Some o) st, [])
      | None => (st, [])
      end
  | SelectChange row value =>
      match filtered st !! row with
      | Some o =>
          if Js.truthy value then handleStatusChange srv (Order.id o) value st
          else (st, [])
      | None => (st, [])
      end
  | ModalButtonClick s =>
      match selectedOrder st with
      | Some sel => handleStatusChange srv (Order.id sel) s st
      | None => (st, [])
      end
  | ModalClose => (setSelectedOrder None st, [])
  end.

(** The record a transition control belongs to: the row's order for a
    [<select>], the selected order for a modal button. *)
Definition subject {engine : Js.Engine} (st : State) (ev : Event) : option Order.t :=
  match ev with
  | SelectChange row _ => filtered st !! row
  | ModalButtonClick _ => selectedOrder st
  | _ => None
  end.

(** The labels and colours of the statuses ([all] is the first tab). *)
Definition statusLabels : gmap string string :=
  list_to_map
    [ ("all", "Все");
      ("new", "Новый");
      ("confirmed", "Подтверждён");
      ("preparing", "Готовится");
      ("delivering", "В доставке");
      ("completed", "Выполнен");
      ("canceled", "Отменён") ].

Definition statusColors : gmap string string :=
  list_to_map
    [ ("new", "bg-blue-100 text-blue-700");
      ("confirmed", "bg-indigo-100 text-indigo-700");
      ("preparing", "bg-yellow-100 text-yellow-700");
      ("delivering", "bg-orange-100 text-orange-700");
      ("completed", "bg-green-100 text-green-700");
      ("canceled", "bg-red-100 text-red-700") ].

(** [statusLabels[order.status] || order.status], the text of the status
    badge of a row. *)
Definition badgeLabel (status : string) : string :=
  Js.orElse (statusLabels !! status) status.

(** [statusColors[order.status] || 'bg-gray-100 text-gray-600'] *)
Definition badgeColor (status : string) : string :=
  Js.orElse (statusColors !! status) "bg-gray-100 text-gray-600".

(** [{statusLabels[s]}], the text of an [<option>] or of a modal button:
    nothing is rendered for a status without a label. *)
Definition optionLabel (status : string) : string :=
  default EmptyString (statusLabels !! status).

(** One step of the loop
    [statusCounts[o.status] = (statusCounts[o.status] || 0) + 1]. *)
Definition countStatus (counts : gmap string nat) (o : Order.t) : gmap string nat :=
  <[Order.status o := (default 0 (counts !! Order.status o) + 1)%nat]> counts.

Definition statusCounts (st : State) : gmap string nat :=
  fold_left countStatus (orders st) ∅.

(** The number in the badge of a tab:
    [status === 'all' ? orders.length : statusCounts[status] || 0]. *)
Definition tabCount (st : State) (status : string) : nat :=
  if String.eqb status "all" then length (orders st)
  else default 0%nat (statusCounts st !! status).

(** The effect [useEffect(() => fetchOrders(activeTab), [activeTab])] when
    the page mounts. *)
Definition onMount (srv : Server) (st : State) : State * list Request :=
  fetchOrders srv (activeTab st) st.

(** A session: the events of the user, each with the server's replies
    while its handler runs; an event that no control can deliver is
    skipped. *)
Fixpoint run {engine : Js.Engine} (st : State) (session : list (Server * Event)) : State :=
  match session with
  | [] => st
  | (srv, ev) :: rest =>
      run (if enabled st ev then (handle srv st ev).1 else st) rest
  end.

(** A chain of statuses in which each one is offered for the one before
    it. *)
Fixpoint isChain (l : list string) : bool :=
  match l with
  | [] => true
  | a :: tl =>
      match tl with
      | [] => true
      | b :: _ => bool_decide (b ∈ offered a) && isChain tl
      end
  end.

(** How far a status is along the workflow (a measure for [isChain]). *)
Definition rank (status : string) : nat :=
  if String.eqb status "new" then 0
  else if String.eqb status "confirmed" then 1
  else if String.eqb status "preparing" then 2
  else if String.eqb status "delivering" then 3
  else 4.

(** The requests that only read. *)
Definition isGet (r : Request) : bool :=
  match r with
  | PutOrderStatus _ _ => false
  | _ => true
  end.

(** What holds of the page between two events. *)
Definition atRest (st : State) : Prop :=
  loading st = false /\ updatingId st = None /\ activeTab st ∈ statuses.

(** The list on the page is empty or is what one of the servers answered
    to a list request. *)
Definition fromServer (servers : list Server) (st : State) : Prop :=
  orders st = []
  \/ exists srv params, srv ∈ servers /\ getOrders srv params = Ok (orders st).

End Orders.

(** ** Loyalty page *)

Module LoyaltyUser.
Record t := {
  id : Z;
  firstName : option string;
  lastName : option string;
  username : option string;
  phone : option string;
  bonusPoints : Z;
  telegramId : string;
}.

(** [{ ...u, bonusPoints: v }] *)
Definition withBonusPoints (u : t) (v : Z) : t :=
  {| id := id u; firstName := firstName u; lastName := lastName u;
     username := username u; phone := phone u; bonusPoints := v;
     telegramId := telegramId u |}.
End LoyaltyUser.

Module HistoryEntry.
Record t := {
  id : Z;
  amount : Z;
  type : string;
  description : option string;
  createdAt : string;
}.
End HistoryEntry.

Module Loyalty.
Import Http.

Record State := {
  users : list LoyaltyUser.t;
  loading : bool;
  error : string;
  search : string;
  selectedUser : option LoyaltyUser.t;
  history : list HistoryEntry.t;
  historyLoading : bool;
  showAdjust : bool;
  adjustAmount : string;
  adjustDescription : string;
  adjusting : bool;
}.

Definition setUsers (v : list LoyaltyUser.t) (st : State) : State :=
  {| users := v; loading := loading st; error := error st; search := search st;
     selectedUser := selectedUser st; history := history st;
     historyLoading := historyLoading st; showAdjust := showAdjust st;
     adjustAmount := adjustAmount st; adjustDescription := adjustDescription st;
     adjusting := adjusting st |}.
Definition setLoading (v : bool) (st : State) : State :=
  {| users := users st; loading := v; error := error st; search := search st;
     selectedUser := selectedUser st; history := history st;
     historyLoading := historyLoading st; showAdjust := showAdjust st;
     adjustAmount := adjustAmount st; adjustDescription := adjustDescription st;
     adjusting := adjusting st |}.
Definition setError (v : string) (st : State) : State :=
  {| users := users st; loading := loading st; error := v; search := search st;
     selectedUser := selectedUser st; history := history st;
     historyLoading := historyLoading st; showAdjust := showAdjust st;
     adjustAmount := adjustAmount st; adjustDescription := adjustDescription st;
     adjusting := adjusting st |}.
Definition setSearch (v : string) (st : State) : State :=
  {| users := users st; loading := loading st; error := error st; search := v;
     selectedUser := selectedUser st; history := history st;
     historyLoading := historyLoading st; showAdjust := showAdjust st;
     adjustAmount := adjustAmount st; adjustDescription := adjustDescription st;
     adjusting := adjusting st |}.
Definition setSelectedUser (v : option LoyaltyUser.t) (st : State) : State :=
  {| users := users st; loading := loading st; error := error st; search := search st;
     selectedUser := v; history := history st;
     historyLoading := historyLoading st; showAdjust := showAdjust st;
     adjustAmount := adjustAmount st; adjustDescription := adjustDescription st;
     adjusting := adjusting st |}.
Definition setHistory (v : list HistoryEntry.t) (st : State) : State :=
  {| users := users st; loading := loading st; error := error st; search := search st;
     selectedUser := selectedUser st; history := v;
     historyLoading := historyLoading st; showAdjust := showAdjust st;
     adjustAmount := adjustAmount st; adjustDescription := adjustDescription st;
     adjusting := adjusting st |}.
Definition setShowAdjust (v : bool) (st : State) : State :=
  {| users := users st; loading := loading st; error := error st; search := search st;
     selectedUser := selectedUser st; history := history st;
     historyLoading := historyLoading st; showAdjust := v;
     adjustAmount := adjustAmount st; adjustDescription := adjustDescription st;
     adjusting := adjusting st |}.
Definition setAdjustAmount (v : string) (st : State) : State :=
  {| users := users st; loading := loading st; error := error st; search := search st;
     selectedUser := selectedUser st; history := history st;
     historyLoading := historyLoading st; showAdjust := showAdjust st;
     adjustAmount := v; adjustDescription := adjustDescription st;
     adjusting := adjusting st |}.
Definition setAdjustDescription (v : string) (st : State) : State :=
  {| users := users st; loading := loading st; error := error st; search := search st;
     selectedUser := selectedUser st; history := history st;
     historyLoading := historyLoading st; showAdjust := showAdjust st;
     adjustAmount := adjustAmount st; adjustDescription := v;
     adjusting := adjusting st |}.
Definition setAdjusting (v : bool) (st : State) : State :=
  {| users := users st; loading := loading st; error := error st; search := search st;
     selectedUser := selectedUser st; history := history st;
     historyLoading := historyLoading st; showAdjust := showAdjust st;
     adjustAmount := adjustAmount st; adjustDescription := adjustDescription st;
     adjusting := v |}.

Inductive Request :=
| GetLoyalty                                   (* GET /loyalty *)
| GetHistory (userId : Z)                      (* GET /loyalty/{id} *)
| PostAdjust (userId : Z) (amount : Z) (description : option string).
                                               (* POST /loyalty/{id}/adjust *)

(** The replies during one run of a handler.  The payload of
    [getLoyalty] and [getHistory] is the list the handler extracts from
    the response ([data] itself, or [data.users] / [data.history]). *)
Record Server := {
  getLoyalty : reply (list LoyaltyUser.t);
  getHistory : Z -> reply (list HistoryEntry.t);
  postAdjust : Z -> Z -> option string -> reply unit;
}.

Definition fetchUsers (srv : Server) (st : State) : State * list Request :=
  let st :=
    match getLoyalty srv with
    | Ok list => setUsers list st
    | Err _ => setError "Ошибка загрузки пользователей" st
    end in
  (setLoading false st, [GetLoyalty]).

(** [Number.isSafeInteger]: the integers on which the arithmetic of
    doubles is the arithmetic of integers. *)
Definition isSafeInteger (n : Z) : bool :=
  (Z.abs n <=? 9007199254740991)%Z.

Fixpoint parseDigits (s : string) (acc : Z) : option Z :=
  match s with
  | EmptyString => Some acc
  | String c s' =>
      let n := nat_of_ascii c in
      if (48 <=? n)%nat && (n <=? 57)%nat
      then parseDigits s' (10 * acc + Z.of_nat (n - 48))
      else None
  end.

(** [Number(s)] on the strings that denote an integer: optional white
    space around an optional sign and decimal digits, and the blank
    string (which is 0).  The result is the integer the digits denote;
    it is the number JS computes as long as it is a safe integer (see
    [isSafeInteger]), beyond which a double is rounded.  [None] stands
    for every other string (a fraction, an exponent, a hexadecimal
    literal, [NaN]), which the development does not follow further. *)
Definition Number (s : string) : option Z :=
  match Js.trim s with
  | EmptyString => Some 0
  | String "+" (String c r) => parseDigits (String c r) 0
  | String "-" (String c r) => Z.opp <$> parseDigits (String c r) 0
  | t => parseDigits t 0
  end.

(** [adjustDescription.trim() || undefined] *)
Definition descriptionField (d : string) : option string :=
  if Js.truthy (Js.trim d) then Some (Js.trim d) else None.

Definition adjustFailed : string := "Ошибка корректировки баллов".

(** The submit handler of the adjustment form.  The result is [None]
    only when [Number] is (see there); the new balance is the sum of
    integers, which is the sum JS computes while the numbers are safe
    integers. *)
Definition handleAdjust (srv : Server) (st : State)
  : option (State * list Request) :=
  match selectedUser st with
  | None => Some (st, [])
  | Some sel =>
      if negb (Js.truthy (adjustAmount st)) then Some (st, [])
      else
        amount ← Number (adjustAmount st);
        let userId := LoyaltyUser.id sel in
        let description := descriptionField (adjustDescription st) in
        let post := PostAdjust userId amount description in
        let st := setError EmptyString (setAdjusting true st) in
        Some
          match postAdjust srv userId amount description with
          | Ok _ =>
              let '(st, fetched) := fetchUsers srv st in
              match getHistory srv userId with
              | Ok h =>
                  let st := setHistory h st in
                  let st :=
                    setSelectedUser
                      (match selectedUser st with
                       | Some prev =>
                           Some (LoyaltyUser.withBonusPoints prev
                                   (LoyaltyUser.bonusPoints prev + amount))
                       | None => None
                       end) st in
                  let st := setAdjustAmount EmptyString st in
                  let st := setAdjustDescription EmptyString st in
                  let st := setShowAdjust false st in
                  (setAdjusting false st, post :: fetched ++ [GetHistory userId])
              | Err err =>
                  let st := setError (Js.orElse (messageField err) adjustFailed) st in
                  (setAdjusting false st, post :: fetched ++ [GetHistory userId])
              end
          | Err err =>
              let st := setError (Js.orElse (messageField err) adjustFailed) st in
              (setAdjusting false st, [post])
          end
  end.

(** The balance shown in the header of the user modal. *)
Definition displayedBalance (st : State) : option Z :=
  LoyaltyUser.bonusPoints <$> selectedUser st.

Definition fullName (u : LoyaltyUser.t) : string :=
  Js.orElse (LoyaltyUser.firstName u) EmptyString ++ " "
    ++ Js.orElse (LoyaltyUser.lastName u) EmptyString.

(** The predicate passed to [users.filter]. *)
Definition matches {engine : Js.Engine} (search : string) (u : LoyaltyUser.t) : bool :=
  if negb (Js.truthy (Js.trim search)) then true
  else
    let q := Js.toLowerCase search in
    let name := Js.toLowerCase (fullName u) in
    Js.includes name q
    || Js.includes (Js.toLowerCase (Js.orElse (LoyaltyUser.username u) EmptyString)) q
    || Js.includes (Js.orElse (LoyaltyUser.phone u) EmptyString) q.

Definition filtered {engine : Js.Engine} (st : State) : list LoyaltyUser.t :=
  List.filter (matches (search st)) (users st).

Definition setHistoryLoading (v : bool) (st : State) : State :=
  {| users := users st; loading := loading st; error := error st; search := search st;
     selectedUser := selectedUser st; history := history st;
     historyLoading := v; showAdjust := showAdjust st;
     adjustAmount := adjustAmount st; adjustDescription := adjustDescription st;
     adjusting := adjusting st |}.

Definition historyFailed : string := "Ошибка загрузки истории".

(** A click on a row, or on its history button: the handler up to its
    [await]. *)
Definition beginOpen (user : LoyaltyUser.t) (st : State) : State * list Request :=
  let st := setSelectedUser (Some user) st in
  let st := setHistoryLoading true st in
  let st := setHistory [] st in
  let st := setShowAdjust false st in
  let st := setAdjustAmount EmptyString st in
  let st := setAdjustDescription EmptyString st in
  (st, [GetHistory (LoyaltyUser.id user)]).

(** The handler after its [await], on the state the page has when the
    answer arrives; it does not look at which user is open by then. *)
Definition endOpen (r : reply (list HistoryEntry.t)) (st : State) : State :=
  let st :=
    match r with
    | Ok h => setHistory h st
    | Err _ => setError historyFailed st
    end in
  setHistoryLoading false st.

(** The whole handler, when nothing happens on the page before the
    answer. *)
Definition openUserHistory (srv : Server) (user : LoyaltyUser.t) (st : State)
  : State * list Request :=
  let '(st, sent) := beginOpen user st in
  (endOpen (getHistory srv (LoyaltyUser.id user)) st, sent).

Definition closeModal (st : State) : State :=
  setShowAdjust false (setHistory [] (setSelectedUser None st)).

(** The two sign buttons of the adjustment form:
    [prev.startsWith('-') ? prev.slice(1) : prev] and
    [prev.startsWith('-') ? prev : `-${prev}`]. *)
Definition plusClick (prev : string) : string :=
  match prev with
  | String "-" rest => rest
  | _ => prev
  end.

Definition minusClick (prev : string) : string :=
  match prev with
  | String "-" _ => prev
  | _ => String "-" prev
  end.

(** The name cell of a row:
    [[user.firstName, user.lastName].filter(Boolean).join(' ') || '---']. *)
Definition shownName (u : LoyaltyUser.t) : string :=
  Js.join " " (Js.filterBoolean [LoyaltyUser.firstName u; LoyaltyUser.lastName u]).

Definition nameCell (u : LoyaltyUser.t) : string :=
  Js.orElse (Some (shownName u)) "---".

(** A decimal digit, as [parseDigits] accepts it. *)
Definition isDigit (c : ascii) : bool :=
  let n := nat_of_ascii c in (48 <=? n)%nat && (n <=? 57)%nat.

End Loyalty.

(** ** Users page *)

Module UserItem.
Record t := {
  id : Z;
  telegramId : option string;
  maxId : option string;
  platform : option string;
  firstName : option string;
  lastName : option string;
  username : option string;
  phone : option string;
  bonusPoints : Z;
  ordersCount : Z;
  createdAt : string;
}.
End UserItem.

Module Users.

(** The cells the list view reads (the detail modal has its own). *)
Record State := {
  users : list UserItem.t;
  loading : bool;
  search : string;
}.

Definition fullName (u : UserItem.t) : string :=
  Js.orElse (UserItem.firstName u) EmptyString ++ " "
    ++ Js.orElse (UserItem.lastName u) EmptyString.

(** The predicate passed to [users.filter]. *)
Definition matches {engine : Js.Engine} (search : string) (u : UserItem.t) : bool :=
  if negb (Js.truthy (Js.trim search)) then true
  else
    let q := Js.toLowerCase search in
    let name := Js.toLowerCase (fullName u) in
    Js.includes name q
    || Js.includes (Js.toLowerCase (Js.orElse (UserItem.username u) EmptyString)) q
    || Js.includes (Js.orElse (UserItem.phone u) EmptyString) q
    || Js.includes (Js.orElse (UserItem.telegramId u) EmptyString) q
    || Js.includes (Js.orElse (UserItem.maxId u) EmptyString) q.

Definition filtered {engine : Js.Engine} (st : State) : list UserItem.t :=
  List.filter (matches (search st)) (users st).

(** The name cell of a row:
    [[user.firstName, user.lastName].filter(Boolean).join(' ') || '---']. *)
Definition shownName (u : UserItem.t) : string :=
  Js.join " " (Js.filterBoolean [UserItem.firstName u; UserItem.lastName u]).

Definition nameCell (u : UserItem.t) : string :=
  Js.orElse (Some (shownName u)) "---".

End Users.

(** ** Bouquets page *)

Module Bouquet.
Record t := {
  id : Z;
  name : string;
  price : Z;
  category : string;
  inStock : bool;
  isHit : bool;
  isNew : bool;
  images : list string;
}.

(** The three flags the list can toggle: ['inStock' | 'isHit' | 'isNew']. *)
Inductive Field := InStock | IsHit | IsNew.

Definition get (f : Field) (b : t) : bool :=
  match f with
  | InStock => inStock b
  | IsHit => isHit b
  | IsNew => isNew b
  end.

(** [{ ...b, [field]: value }] *)
Definition set (f : Field) (value : bool) (b : t) : t :=
  match f with
  | InStock =>
      {| id := id b; name := name b; price := price b; category := category b;
         inStock := value; isHit := isHit b; isNew := isNew b; images := images b |}
  | IsHit =>
      {| id := id b; name := name b; price := price b; category := category b;
         inStock := inStock b; isHit := value; isNew := isNew b; images := images b |}
  | IsNew =>
      {| id := id b; name := name b; price := price b; category := category b;
         inStock := inStock b; isHit := isHit b; isNew := value; images := images b |}
  end.
End Bouquet.

Module Bouquets.
Import Http.

Record State := {
  bouquets : list Bouquet.t;
  loading : bool;
  search : string;
  categoryFilter : string;
}.

Definition setBouquets (v : list Bouquet.t) (st : State) : State :=
  {| bouquets := v; loading := loading st; search := search st;
     categoryFilter := categoryFilter st |}.
Definition setLoading (v : bool) (st : State) : State :=
  {| bouquets := bouquets st; loading := v; search := search st;
     categoryFilter := categoryFilter st |}.

Inductive Request :=
| GetBouquets                                              (* GET /bouquets *)
| DeleteBouquet (id : Z)                                   (* DELETE /bouquets/{id} *)
| PatchToggle (id : Z) (field : Bouquet.Field) (value : bool).
                                                   (* PATCH /bouquets/{id}/toggle *)

Record Server := {
  getBouquets : reply (list Bouquet.t);
  deleteBouquet : Z -> reply unit;
  patchToggle : Z -> Bouquet.Field -> bool -> reply unit;
}.

Definition fetchBouquets (srv : Server) (st : State) : State * list Request :=
  let st := setLoading true st in
  let st :=
    match getBouquets srv with
    | Ok d => setBouquets d st
    | Err _ => st
    end in
  (setLoading false st, [GetBouquets]).

Definition handleToggle (srv : Server) (id : Z) (field : Bouquet.Field)
    (value : bool) (st : State) : State * list Request :=
  match patchToggle srv id field value with
  | Ok _ =>
      (setBouquets
         (map (fun b => if Bouquet.id b =? id then Bouquet.set field value b else b)
              (bouquets st)) st,
       [PatchToggle id field value])
  | Err _ => (st, [PatchToggle id field value])
  end.

(** [confirmed] is the answer to [window.confirm]. *)
Definition handleDelete (srv : Server) (confirmed : bool) (id : Z) (st : State)
  : State * list Request :=
  if negb confirmed then (st, [])
  else
    match deleteBouquet srv id with
    | Ok _ =>
        let '(st, fetched) := fetchBouquets srv st in
        (st, DeleteBouquet id :: fetched)
    | Err _ => (st, [DeleteBouquet id])
    end.

(** The predicate passed to [bouquets.filter]. *)
Definition matches {engine : Js.Engine} (categoryFilter search : string) (b : Bouquet.t) : bool :=
  if negb (String.eqb categoryFilter "all")
     && negb (String.eqb (Bouquet.category b) categoryFilter)
  then false
  else if Js.truthy (Js.trim search)
  then Js.includes (Js.toLowerCase (Bouquet.name b)) (Js.toLowerCase search)
  else true.

Definition filtered {engine : Js.Engine} (st : State) : list Bouquet.t :=
  List.filter (matches (categoryFilter st) (search st)) (bouquets st).

(** The three switches of a row: each calls [handleToggle] with the
    negation of the flag the row shows. *)
Definition switchClick (srv : Server) (b : Bouquet.t) (field : Bouquet.Field)
    (st : State) : State * list Request :=
  handleToggle srv (Bouquet.id b) field (negb (Bouquet.get field b)) st.

End Bouquets.

(** ** Constructor page *)

Module ConstructorItem.
Record t := {
  id : string;
  _id : option string;
  name : string;
  price : Z;
  inStock : option bool;
}.

(** [{ ...i, inStock: v }] *)
Definition withInStock (i : t) (v : bool) : t :=
  {| id := id i; _id := _id i; name := name i; price := price i;
     inStock := Some v |}.

(** [i.id || i._id], [None] for [undefined]. *)
Definition key (i : t) : option string :=
  if Js.truthy (id i) then Some (id i) else _id i.
End ConstructorItem.

Module ConstructorManager.
Import Http.

Inductive TabKey := flowers | greenery | packaging.

Definition endpoint (k : TabKey) : string :=
  match k with
  | flowers => "/constructor/flowers"
  | greenery => "/constructor/greenery"
  | packaging => "/constructor/packaging"
  end.

(** [ConstructorData], read and written by tab key: [d[k]] and
    [{ ...d, [k]: v }]. *)
Definition ConstructorData : Type := TabKey -> list ConstructorItem.t.

Definition update (d : ConstructorData) (k : TabKey) (v : list ConstructorItem.t)
  : ConstructorData :=
  fun k' =>
    match k, k' with
    | flowers, flowers | greenery, greenery | packaging, packaging => v
    | _, _ => d k'
    end.

Record State := {
  activeTab : TabKey;
  data : ConstructorData;
  loading : bool;
  submitting : bool;
  error : string;
  newName : string;
  newPrice : string;
}.

Definition setData (v : ConstructorData) (st : State) : State :=
  {| activeTab := activeTab st; data := v; loading := loading st;
     submitting := submitting st; error := error st; newName := newName st;
     newPrice := newPrice st |}.

Inductive Request :=
| GetConstructor                                  (* GET /constructor *)
| PutItem (url : string) (itemId : option string) (inStock : bool).
                                                  (* PUT {endpoint}/{itemId} *)

Record Server := {
  putItem : string -> option string -> bool -> reply unit;
}.

(** [!item.inStock], where a missing flag is falsy. *)
Definition notInStock (item : ConstructorItem.t) : bool :=
  match ConstructorItem.inStock item with
  | Some b => negb b
  | None => true
  end.

Definition handleToggleStock (srv : Server) (item : ConstructorItem.t) (st : State)
  : State * list Request :=
  let tab := activeTab st in
  let itemId := ConstructorItem.key item in
  let newVal := notInStock item in
  match putItem srv (endpoint tab) itemId newVal with
  | Ok _ =>
      (setData
         (update (data st) tab
            (map (fun i =>
                    if bool_decide (ConstructorItem.key i = itemId)
                    then ConstructorItem.withInStock i newVal else i)
                 (data st tab))) st,
       [PutItem (endpoint tab) itemId newVal])
  | Err _ => (st, [PutItem (endpoint tab) itemId newVal])
  end.

Definition setLoading (v : bool) (st : State) : State :=
  {| activeTab := activeTab st; data := data st; loading := v;
     submitting := submitting st; error := error st; newName := newName st;
     newPrice := newPrice st |}.
Definition setSubmitting (v : bool) (st : State) : State :=
  {| activeTab := activeTab st; data := data st; loading := loading st;
     submitting := v; error := error st; newName := newName st;
     newPrice := newPrice st |}.
Definition setError (v : string) (st : State) : State :=
  {| activeTab := activeTab st; data := data st; loading := loading st;
     submitting := submitting st; error := v; newName := newName st;
     newPrice := newPrice st |}.
Definition setNewName (v : string) (st : State) : State :=
  {| activeTab := activeTab st; data := data st; loading := loading st;
     submitting := submitting st; error := error st; newName := v;
     newPrice := newPrice st |}.
Definition setNewPrice (v : string) (st : State) : State :=
  {| activeTab := activeTab st; data := data st; loading := loading st;
     submitting := submitting st; error := error st; newName := newName st;
     newPrice := v |}.

(** The requests of the add form and of the delete buttons. *)
Inductive CatalogRequest :=
| PostItem (url : string) (name : string) (price : Z)     (* POST {endpoint} *)
| DeleteItem (url : string) (itemId : option string).     (* DELETE {endpoint}/{itemId} *)

Record CatalogServer := {
  getConstructor : reply ConstructorData;
  postItem : string -> string -> Z -> reply ConstructorItem.t;
  deleteItem : string -> option string -> reply unit;
}.

(** The payload of [getConstructor] is the response with a missing list
    read as empty ([res.flowers || []]). *)
Definition fetchData (srv : CatalogServer) (st : State) : State * list Request :=
  let st :=
    match getConstructor srv with
    | Ok res => setData res st
    | Err _ => setError "Ошибка загрузки данных конструктора" st
    end in
  (setLoading false st, [GetConstructor]).

Definition addFailed : string := "Ошибка добавления".
Definition deleteFailed : string := "Ошибка удаления".

(** The submit handler of the add form.  The result is [None] only when
    [Number(newPrice)] is not an integer (see [Loyalty.Number]). *)
Definition handleAdd (srv : CatalogServer) (st : State)
  : option (State * list CatalogRequest) :=
  if negb (Js.truthy (Js.trim (newName st))) || negb (Js.truthy (Js.trim (newPrice st)))
  then Some (st, [])
  else
    price ← Loyalty.Number (newPrice st);
    let tab := activeTab st in
    let name := Js.trim (newName st) in
    let st := setError EmptyString (setSubmitting true st) in
    Some
      match postItem srv (endpoint tab) name price with
      | Ok created =>
          let st := setData (update (data st) tab (data st tab ++ [created])) st in
          let st := setNewPrice EmptyString (setNewName EmptyString st) in
          (setSubmitting false st, [PostItem (endpoint tab) name price])
      | Err err =>
          let st := setError (Js.orElse (messageField err) addFailed) st in
          (setSubmitting false st, [PostItem (endpoint tab) name price])
      end.

(** [confirmed] is the answer to [window.confirm]. *)
Definition handleDelete (srv : CatalogServer) (confirmed : bool)
    (item : ConstructorItem.t) (st : State) : State * list CatalogRequest :=
  if negb confirmed then (st, [])
  else
    let tab := activeTab st in
    let itemId := ConstructorItem.key item in
    match deleteItem srv (endpoint tab) itemId with
    | Ok _ =>
        (setData
           (update (data st) tab
              (List.filter
                 (fun i => negb (bool_decide (ConstructorItem.key i = itemId)))
                 (data st tab))) st,
         [DeleteItem (endpoint tab) itemId])
    | Err err =>
        (setError (Js.orElse (messageField err) deleteFailed) st,
         [DeleteItem (endpoint tab) itemId])
    end.

(** The switch of a row is drawn on when [item.inStock !== false]. *)
Definition shownInStock (item : ConstructorItem.t) : bool :=
  negb (bool_decide (ConstructorItem.inStock item = Some false)).

End ConstructorManager.

(** ** Application shell *)

Module App.
Import Http.

(** The key of the bearer token in [localStorage]. *)
Definition tokenKey : string := "rosa_admin_token".

(** [localStorage] and the [isAuth] cell ([None] is JS [null]: the check
    has not answered yet). *)
Record State := {
  localStorage : gmap string string;
  isAuth : option bool;
}.

Inductive Request :=
| GetAuthMe.                                      (* GET /auth/me *)

Record Server := {
  getAuthMe : reply unit;
}.

(** [!token] for the result of [localStorage.getItem]. *)
Definition noToken (token : option string) : bool :=
  match token with
  | Some t => negb (Js.truthy t)
  | None => true
  end.

(** The effect that runs once, when the application mounts. *)
Definition onMount (srv : Server) (st : State) : State * list Request :=
  let token := localStorage st !! tokenKey in
  if noToken token then
    ({| localStorage := localStorage st; isAuth := Some false |}, [])
  else
    match getAuthMe srv with
    | Ok _ =>
        ({| localStorage := localStorage st; isAuth := Some true |}, [GetAuthMe])
    | Err _ =>
        ({| localStorage := delete tokenKey (localStorage st);
            isAuth := Some false |}, [GetAuthMe])
    end.

Inductive Page :=
| Dashboard | BouquetsPage | BouquetForm | UsersPage | OrdersPage
| LoyaltyPage | Analytics | Settings | BroadcastPage.

(** What the component returns for a location. *)
Inductive Element :=
| Spinner
| Login
| Navigate (to : string)
| Shell (page : Page).

(** How React Router matches a route path against a location: the
    letters of the path are compared without regard to case, and slashes
    at the end of the location are ignored (the route [/orders] is the
    expression [^/orders/*$] with the flag [i]). *)
Fixpoint allSlashes (s : string) : bool :=
  match s with
  | EmptyString => true
  | String c s' => Ascii.eqb c "/" && allSlashes s'
  end.

(** The rest of [s] after the prefix [p], if [s] starts with [p]. *)
Fixpoint afterPrefix (p s : string) : option string :=
  match p, s with
  | EmptyString, _ => Some s
  | String _ _, EmptyString => None
  | String a p', String b s' =>
      if Ascii.eqb a b then afterPrefix p' s' else None
  end.

Definition matchesRoute (route path : string) : bool :=
  match afterPrefix route (Js.asciiLowerCase path) with
  | Some rest => allSlashes rest
  | None => false
  end.

(** A segment without a slash, then slashes only. *)
Fixpoint segmentThenSlashes (s : string) : bool :=
  match s with
  | EmptyString => true
  | String c s' =>
      if Ascii.eqb c "/" then allSlashes s' else segmentThenSlashes s'
  end.

(** The route [/bouquets/:id]: one non-empty segment after the prefix
    ([^/bouquets/([^/]+)/*$]). *)
Definition isBouquetId (path : string) : bool :=
  match afterPrefix "/bouquets/" (Js.asciiLowerCase path) with
  | Some (String c rest) => negb (Ascii.eqb c "/") && segmentThenSlashes rest
  | _ => false
  end.

(** The routes in the order the router ranks them: a static path before
    the dynamic one, the catch-all last.  [path] is the path of the
    location as the router matches it, that is, decoded. *)
Definition render (st : State) (path : string) : Element :=
  match isAuth st with
  | None => Spinner
  | Some false =>
      if matchesRoute "/login" path then Login else Navigate "/login"
  | Some true =>
      if matchesRoute "/" path then Shell Dashboard
      else if matchesRoute "/bouquets" path then Shell BouquetsPage
      else if matchesRoute "/bouquets/new" path then Shell BouquetForm
      else if isBouquetId path then Shell BouquetForm
      else if matchesRoute "/users" path then Shell UsersPage
      else if matchesRoute "/orders" path then Shell OrdersPage
      else if matchesRoute "/loyalty" path then Shell LoyaltyPage
      else if matchesRoute "/analytics" path then Shell Analytics
      else if matchesRoute "/settings" path then Shell Settings
      else if matchesRoute "/broadcast" path then Shell BroadcastPage
      else Navigate "/"
  end.

(** The screen shown once the router has followed the [Navigate]
    elements, at most [fuel] of them. *)
Fixpoint screen (fuel : nat) (st : State) (path : string) : option Element :=
  match render st path with
  | Navigate to =>
      match fuel with
      | O => None
      | S fuel' => screen fuel' st to
      end
  | e => Some e
  end.

(** The [onLogout] callback passed to the sidebar. *)
Definition logout (st : State) : State :=
  {| localStorage := delete tokenKey (localStorage st); isAuth := Some false |}.

(** The [onLogin] callback passed to the login page. *)
Definition onLogin (st : State) : State :=
  {| localStorage := localStorage st; isAuth := Some true |}.

End App.

(** ** Broadcast page *)

Module Broadcast.
Import Http.

Record Result := { sent : Z; failed : Z; total : Z }.

Record State := {
  message : string;
  sending : bool;
  result : option Result;
  error : string;
}.

Inductive Request :=
| PostBroadcast (message : string).               (* POST /broadcast *)

Record Server := {
  postBroadcast : string -> reply Result;
}.

Definition sendFailed : string := "Ошибка отправки рассылки".

(** The handler up to its [await]: the guards, the three state
    updates and the request.  [confirmed] is the answer to
    [window.confirm]; the dialog is shown only when the first guard lets
    the handler go on. *)
Definition beginSend (confirmed : bool) (st : State) : State * list Request :=
  if negb (Js.truthy (Js.trim (message st))) then (st, [])
  else if negb confirmed then (st, [])
  else
    ({| message := message st; sending := true; result := None;
        error := EmptyString |},
     [PostBroadcast (Js.trim (message st))]).

(** The handler after its [await], on the state the request left. *)
Definition endSend (r : reply Result) (st : State) : State :=
  match r with
  | Ok d =>
      {| message := message st; sending := false; result := Some d;
         error := error st |}
  | Err err =>
      {| message := message st; sending := false; result := result st;
         error := Js.orElse (errorField err) sendFailed |}
  end.

Definition handleSend (srv : Server) (confirmed : bool) (st : State)
  : State * list Request :=
  match beginSend confirmed st with
  | (st', []) => (st', [])
  | (st', (PostBroadcast payload :: _) as sentRequests) =>
      (endSend (postBroadcast srv payload) st', sentRequests)
  end.

(** The [disabled] attribute of the send button. *)
Definition sendDisabled (st : State) : bool :=
  sending st || negb (Js.truthy (Js.trim (message st))).

End Broadcast.

(** ** Sidebar *)

Module Sidebar.

(** The menu, by path and label. *)
Definition menuItems : list (string * string) :=
  [ ("/", "Дашборд");
    ("/bouquets", "Букеты");
    ("/constructor", "Конструктор");
    ("/orders", "Заказы");
    ("/loyalty", "Лояльность");
    ("/analytics", "Аналитика");
    ("/settings", "Настройки") ].

(** Whether the item of [path] is highlighted at the location
    [pathname]. *)
Definition active (pathname path : string) : bool :=
  String.eqb pathname path
  || (negb (String.eqb path "/") && Js.startsWith pathname path).

(** The items highlighted at a location. *)
Definition activeItems (pathname : string) : list (string * string) :=
  List.filter (fun item => active pathname item.1) menuItems.

End Sidebar.

(** ** Login page *)

Module Login.
Import Http.

Record State := {
  login : string;
  password : string;
  error : string;
  loading : bool;
}.

Inductive Request :=
| PostLogin (login password : string).              (* POST /auth/login *)

(** The payload of a successful reply is [data.token]. *)
Record Server := {
  postLogin : string -> string -> reply string;
}.

Definition loginFailed : string := "Ошибка входа. Проверьте логин и пароль.".

(** The submit handler; [app] is the state of the application shell, which
    the handler reaches through [localStorage] and [onLogin]. *)
Definition handleSubmit (srv : Server) (st : State) (app : App.State)
  : State * App.State * list Request :=
  let sent := [PostLogin (login st) (password st)] in
  match postLogin srv (login st) (password st) with
  | Ok token =>
      let app :=
        {| App.localStorage := <[App.tokenKey := token]> (App.localStorage app);
           App.isAuth := App.isAuth app |} in
      ({| login := login st; password := password st; error := EmptyString;
          loading := false |},
       App.onLogin app, sent)
  | Err err =>
      ({| login := login st; password := password st;
          error := Js.orElse (errorField err)
                     (Js.orElse (messageField err) loginFailed);
          loading := false |},
       app, sent)
  end.

End Login.

(** ** Settings page *)

Module Settings.
Import Http.

Record State := {
  settings : gmap string string;
  loading : bool;
  saving : bool;
  error : string;
  success : bool;
}.

Inductive Request :=
| GetSettings                                        (* GET /settings *)
| PutSettings (payload : gmap string string).        (* PUT /settings *)

Record Server := {
  putSettings : gmap string string -> reply unit;
}.

(** [settings[field.key] || ''], the value an input shows. *)
Definition fieldValue (st : State) (key : string) : string :=
  Js.orElse (settings st !! key) EmptyString.

Definition handleChange (key value : string) (st : State) : State :=
  {| settings := <[key := value]> (settings st); loading := loading st;
     saving := saving st; error := error st;
     success := if success st then false else success st |}.

Definition saveFailed : string := "Ошибка сохранения настроек".

(** The submit handler (the timer that hides the confirmation after three
    seconds is a later event). *)
Definition handleSubmit (srv : Server) (st : State) : State * list Request :=
  match putSettings srv (settings st) with
  | Ok _ =>
      ({| settings := settings st; loading := loading st; saving := false;
          error := EmptyString; success := true |},
       [PutSettings (settings st)])
  | Err err =>
      ({| settings := settings st; loading := loading st; saving := false;
          error := Js.orElse (messageField err) saveFailed; success := false |},
       [PutSettings (settings st)])
  end.

(** The edits of a session, applied in order. *)
Definition edit (st : State) (edits : list (string * string)) : State :=
  fold_left (fun st kv => handleChange kv.1 kv.2 st) edits st.

End Settings.

(** ** Bouquet form: the image lists *)

Module BouquetForm.

(** [prev.filter((_, i) => p(i))], with [i] the position of the element
    ([from] is the position of the head). *)
Fixpoint filterIndex {A} (p : nat -> bool) (from : nat) (l : list A) : list A :=
  match l with
  | [] => []
  | x :: l' =>
      if p from then x :: filterIndex p (S from) l' else filterIndex p (S from) l'
  end.

(** [removeNewImage] and [removeExistingImage]:
    [prev.filter((_, i) => i !== index)]. *)
Definition removeImage {A} (index : nat) (prev : list A) : list A :=
  filterIndex (fun i => negb (i =? index)%nat) 0 prev.

(** [handleFileChange]: [[...prev, ...Array.from(e.target.files)]]; [None]
    stands for [e.target.files] being null. *)
Definition handleFileChange {A} (files : option (list A)) (prev : list A) : list A :=
  match files with
  | Some fs => (prev ++ fs)%list
  | None => prev
  end.

End BouquetForm.

(** ** Sample data for the examples *)

Module Sample.
Import Http.

Definition anna : OrderUser.t :=
  {| OrderUser.id := 1; OrderUser.firstName := "Anna";
     OrderUser.lastName := Some "Petrova"; OrderUser.username := Some "Rose";
     OrderUser.phone := Some "+79001234567"; OrderUser.telegramId := "555" |}.

Definition order7 : Order.t :=
  {| Order.id := 7; Order.user := anna; Order.address := None;
     Order.items := [ {| OrderItem.id := 1; OrderItem.name := "Tulips";
                         OrderItem.price := 2500; OrderItem.quantity := 1 |} ];
     Order.status := "new"; Order.deliveryType := "pickup";
     Order.deliveryDate := None; Order.deliveryTime := None;
     Order.recipientName := None; Order.recipientPhone := None;
     Order.isAnonymous := false; Order.cardText := None; Order.comment := None;
     Order.totalPrice := 2500; Order.bonusUsed := 0; Order.bonusEarned := 0;
     Order.paymentStatus := "pending"; Order.createdAt := "2025-03-08T10:00:00Z" |}.

(** The orders page once the list is loaded, with the modal closed and
    with the modal open on order 7. *)
Definition ordersLoaded : Orders.State :=
  {| Orders.orders := [order7]; Orders.loading := false;
     Orders.activeTab := "all"; Orders.updatingId := None;
     Orders.error := EmptyString; Orders.search := EmptyString;
     Orders.selectedOrder := None |}.

Definition ordersModal : Orders.State :=
  Orders.setSelectedOrder (Some order7) ordersLoaded.

Definition body (e : option string) : AxiosError :=
  {| response := Some {| data := Some {| error := e; message := None |} |} |}.

Definition networkError : AxiosError := {| response := None |}.

(** A server that accepts every status update and whose list and detail
    requests are answered with [list] and [detail]. *)
Definition ordersServer (put : reply unit) (list : reply (list Order.t))
    (detail : reply Order.t) : Orders.Server :=
  {| Orders.getOrders := fun _ => list;
     Orders.putOrderStatus := fun _ _ => put;
     Orders.getOrder := fun _ => detail |}.

Definition ivan : LoyaltyUser.t :=
  {| LoyaltyUser.id := 3; LoyaltyUser.firstName := Some "Ivan";
     LoyaltyUser.lastName := None; LoyaltyUser.username := Some "Ivan_K";
     LoyaltyUser.phone := Some "ABC-100"; LoyaltyUser.bonusPoints := 50;
     LoyaltyUser.telegramId := "777" |}.

Definition welcome : HistoryEntry.t :=
  {| HistoryEntry.id := 1; HistoryEntry.amount := 50;
     HistoryEntry.type := "earned"; HistoryEntry.description := None;
     HistoryEntry.createdAt := "2025-03-01T09:00:00Z" |}.

Definition credit : HistoryEntry.t :=
  {| HistoryEntry.id := 2; HistoryEntry.amount := 100;
     HistoryEntry.type := "adjustment"; HistoryEntry.description := None;
     HistoryEntry.createdAt := "2025-03-08T10:00:00Z" |}.

(** The loyalty page with the modal open on Ivan and [+100] typed into
    the adjustment form. *)
Definition loyaltyForm : Loyalty.State :=
  {| Loyalty.users := [ivan]; Loyalty.loading := false;
     Loyalty.error := EmptyString; Loyalty.search := EmptyString;
     Loyalty.selectedUser := Some ivan; Loyalty.history := [welcome];
     Loyalty.historyLoading := false; Loyalty.showAdjust := true;
     Loyalty.adjustAmount := "+100"; Loyalty.adjustDescription := EmptyString;
     Loyalty.adjusting := false |}.

(** The server after it has recorded the credit. *)
Definition loyaltyServer : Loyalty.Server :=
  {| Loyalty.getLoyalty := Ok [LoyaltyUser.withBonusPoints ivan 150];
     Loyalty.getHistory := fun _ => Ok [credit; welcome];
     Loyalty.postAdjust := fun _ _ _ => Ok tt |}.

(** A server that accepts the adjustment and answers the history
    request with the ledger as it was before (a replica that lags, a
    cache). *)
Definition laggingServer : Loyalty.Server :=
  {| Loyalty.getLoyalty := Ok [LoyaltyUser.withBonusPoints ivan 150];
     Loyalty.getHistory := fun _ => Ok [welcome];
     Loyalty.postAdjust := fun _ _ _ => Ok tt |}.

Definition maria : UserItem.t :=
  {| UserItem.id := 4; UserItem.telegramId := Some "888"; UserItem.maxId := None;
     UserItem.platform := Some "telegram"; UserItem.firstName := Some "Maria";
     UserItem.lastName := Some "Sokolova"; UserItem.username := Some "MaSha";
     UserItem.phone := None; UserItem.bonusPoints := 0; UserItem.ordersCount := 2;
     UserItem.createdAt := "2025-01-10T12:00:00Z" |}.

Definition roses : Bouquet.t :=
  {| Bouquet.id := 11; Bouquet.name := "Red roses"; Bouquet.price := 3500;
     Bouquet.category := "roses"; Bouquet.inStock := true; Bouquet.isHit := false;
     Bouquet.isNew := true; Bouquet.images := ["/uploads/roses.jpg"] |}.

Definition peonies : Bouquet.t :=
  {| Bouquet.id := 12; Bouquet.name := "Peonies"; Bouquet.price := 4200;
     Bouquet.category := "peonies"; Bouquet.inStock := true; Bouquet.isHit := true;
     Bouquet.isNew := false; Bouquet.images := [] |}.

Definition bouquetsLoaded : Bouquets.State :=
  {| Bouquets.bouquets := [roses; peonies]; Bouquets.loading := false;
     Bouquets.search := EmptyString; Bouquets.categoryFilter := "all" |}.

Definition bouquetsServer : Bouquets.Server :=
  {| Bouquets.getBouquets := Ok [roses; peonies];
     Bouquets.deleteBouquet := fun _ => Ok tt;
     Bouquets.patchToggle := fun _ _ _ => Ok tt |}.

Definition ribbon : ConstructorItem.t :=
  {| ConstructorItem.id := "p1"; ConstructorItem._id := None;
     ConstructorItem.name := "Ribbon"; ConstructorItem.price := 50;
     ConstructorItem.inStock := Some true |}.

Definition paper : ConstructorItem.t :=
  {| ConstructorItem.id := "p2"; ConstructorItem._id := None;
     ConstructorItem.name := "Kraft paper"; ConstructorItem.price := 90;
     ConstructorItem.inStock := Some true |}.

Definition constructorLoaded : ConstructorManager.State :=
  {| ConstructorManager.activeTab := ConstructorManager.packaging;
     ConstructorManager.data :=
       ConstructorManager.update (fun _ => []) ConstructorManager.packaging
         [ribbon; paper];
     ConstructorManager.loading := false; ConstructorManager.submitting := false;
     ConstructorManager.error := EmptyString;
     ConstructorManager.newName := EmptyString;
     ConstructorManager.newPrice := EmptyString |}.

Definition constructorServer : ConstructorManager.Server :=
  {| ConstructorManager.putItem := fun _ _ _ => Ok tt |}.

(** A browser that holds a token the server no longer accepts. *)
Definition staleSession : App.State :=
  {| App.localStorage := {[ App.tokenKey := "expired-token" ]};
     App.isAuth := None |}.

Definition rejectingAuth : App.Server :=
  {| App.getAuthMe := Err networkError |}.

Definition draft (text : string) : Broadcast.State :=
  {| Broadcast.message := text; Broadcast.sending := false;
     Broadcast.result := None; Broadcast.error := EmptyString |}.

Definition broadcastServer : Broadcast.Server :=
  {| Broadcast.postBroadcast := fun _ =>
       Ok {| Broadcast.sent := 3; Broadcast.failed := 0; Broadcast.total := 3 |} |}.

(** An order whose customer has a first name only, and customers as the
    loyalty and users pages list them. *)
Definition order42 : Order.t :=
  {| Order.id := 42;
     Order.user :=
       {| OrderUser.id := 2; OrderUser.firstName := "Olga";
          OrderUser.lastName := None; OrderUser.username := None;
          OrderUser.phone := None; OrderUser.telegramId := "556" |};
     Order.address := None; Order.items := [];
     Order.status := "delivering"; Order.deliveryType := "delivery";
     Order.deliveryDate := None; Order.deliveryTime := None;
     Order.recipientName := None; Order.recipientPhone := None;
     Order.isAnonymous := false; Order.cardText := None; Order.comment := None;
     Order.totalPrice := 1900; Order.bonusUsed := 0; Order.bonusEarned := 0;
     Order.paymentStatus := "paid"; Order.createdAt := "2025-03-09T08:30:00Z" |}.

Definition eva : UserItem.t :=
  {| UserItem.id := 5; UserItem.telegramId := None; UserItem.maxId := Some "m-31";
     UserItem.platform := Some "max"; UserItem.firstName := Some "Eva";
     UserItem.lastName := None; UserItem.username := None;
     UserItem.phone := Some "+79005550011"; UserItem.bonusPoints := 120;
     UserItem.ordersCount := 1; UserItem.createdAt := "2025-02-14T18:00:00Z" |}.

(** The loyalty page with the modal open on Ivan and a debit of 80 typed
    into the adjustment form. *)
Definition loyaltyDebit : Loyalty.State :=
  Loyalty.setAdjustDescription "refund"
    (Loyalty.setAdjustAmount "-80" loyaltyForm).

Definition rejecting (msg : option string) : AxiosError :=
  {| response := Some {| data := Some {| error := None; message := msg |} |} |}.

(** The constructor page with a name and a price typed into the add form,
    and the item the server creates for them. *)
Definition constructorForm : ConstructorManager.State :=
  ConstructorManager.setNewPrice "120"
    (ConstructorManager.setNewName " Satin bow " constructorLoaded).

Definition bow : ConstructorItem.t :=
  {| ConstructorItem.id := "p3"; ConstructorItem._id := None;
     ConstructorItem.name := "Satin bow"; ConstructorItem.price := 120;
     ConstructorItem.inStock := None |}.

Definition catalogServer : ConstructorManager.CatalogServer :=
  {| ConstructorManager.getConstructor := Http.Ok (fun _ => []);
     ConstructorManager.postItem := fun _ _ _ => Http.Ok bow;
     ConstructorManager.deleteItem := fun _ _ => Http.Ok tt |}.

End Sample.

(** * Properties *)

(** ** Facts about the string built-ins *)

Module JsFacts.
Import Js.

Lemma append_cons (c : ascii) (s t : string) :
  String c s ++ t = String c (s ++ t).
Proof. reflexivity. Qed.

Lemma append_nil_l (s : string) : EmptyString ++ s = s.
Proof. reflexivity. Qed.

Lemma append_nil_r (s : string) : s ++ EmptyString = s.
Proof. induction s as [|c s IH]; [reflexivity|]. rewrite append_cons, IH. reflexivity. Qed.

Lemma append_assoc (a b c : string) : (a ++ b) ++ c = a ++ b ++ c.
Proof.
  induction a as [|x a IH]; [reflexivity|].
  rewrite !append_cons, IH. reflexivity.
Qed.

Lemma trimStart_afterSpace (s : string) :
  trimStart s = match afterSpace s with Some r => trimStart r | None => s end.
Proof.
  destruct s as [|c1 s1]; [reflexivity|].
  cbn [trimStart afterSpace]. destruct (isSpace c1); [reflexivity|].
  destruct s1 as [|c2 s2]; [reflexivity|].
  destruct (isSpace2 c1 c2); [reflexivity|].
  destruct s2 as [|c3 s3]; [reflexivity|].
  destruct (isSpace3 c1 c2 c3); reflexivity.
Qed.

Lemma isBlank_afterSpace (s : string) :
  isBlank s =
  match afterSpace s with Some r => isBlank r | None => negb (truthy s) end.
Proof.
  destruct s as [|c1 s1]; [reflexivity|].
  cbn [isBlank afterSpace truthy negb]. destruct (isSpace c1); [reflexivity|].
  destruct s1 as [|c2 s2]; [reflexivity|].
  destruct (isSpace2 c1 c2); [reflexivity|].
  destruct s2 as [|c3 s3]; [reflexivity|].
  destruct (isSpace3 c1 c2 c3); reflexivity.
Qed.

(** A string that starts with a white-space character is that character
    followed by the rest, and the character is recognised whatever
    follows it. *)
Lemma afterSpace_Some (s r : string) :
  afterSpace s = Some r ->
  exists w, s = w ++ r /\ (0 < String.length w)%nat
            /\ forall x, afterSpace (w ++ x) = Some x.
Proof.
  destruct s as [|c1 s1]; [discriminate|]. cbn [afterSpace].
  destruct (isSpace c1) eqn:E1.
  { intros [= <-]. exists (String c1 EmptyString).
    split; [reflexivity|]. split; [cbn; lia|].
    intros x. rewrite !append_cons, append_nil_l. cbn [afterSpace]. rewrite E1. reflexivity. }
  destruct s1 as [|c2 s2]; [discriminate|].
  destruct (isSpace2 c1 c2) eqn:E2.
  { intros [= <-]. exists (String c1 (String c2 EmptyString)).
    split; [reflexivity|]. split; [cbn; lia|].
    intros x. rewrite !append_cons, append_nil_l. cbn [afterSpace]. rewrite E1, E2. reflexivity. }
  destruct s2 as [|c3 s3]; [discriminate|].
  destruct (isSpace3 c1 c2 c3) eqn:E3; [|discriminate].
  intros [= <-]. exists (String c1 (String c2 (String c3 EmptyString))).
  split; [reflexivity|]. split; [cbn; lia|].
  intros x. rewrite !append_cons, append_nil_l. cbn [afterSpace]. rewrite E1, E2, E3. reflexivity.
Qed.

Lemma length_append (a b : string) :
  String.length (a ++ b) = (String.length a + String.length b)%nat.
Proof. induction a as [|c a IH]; [reflexivity|]. rewrite append_cons. cbn. rewrite IH. reflexivity. Qed.

Lemma afterSpace_shorter (s r : string) :
  afterSpace s = Some r -> (String.length r < String.length s)%nat.
Proof.
  intros H. destruct (afterSpace_Some _ _ H) as (w & -> & Hw & _).
  rewrite length_append. lia.
Qed.

(** Induction along the white space a string starts with. *)
Lemma space_ind (P : string -> Prop) :
  (forall s, afterSpace s = None -> P s) ->
  (forall s r, afterSpace s = Some r -> P r -> P s) ->
  forall s, P s.
Proof.
  intros Hnone Hsome s.
  remember (String.length s) as n eqn:Hn.
  revert s Hn. induction n as [n IH] using lt_wf_ind. intros s ->.
  destruct (afterSpace s) as [r|] eqn:E.
  - apply (Hsome s r E). apply (IH (String.length r)); [|reflexivity].
    apply afterSpace_shorter, E.
  - apply Hnone, E.
Qed.

Lemma truthy_trimStart (s : string) : truthy (trimStart s) = negb (isBlank s).
Proof.
  induction s as [s E|s r E IH] using space_ind;
    rewrite trimStart_afterSpace, isBlank_afterSpace, E.
  - rewrite negb_involutive. reflexivity.
  - exact IH.
Qed.

Lemma afterSpace_trimStart (s : string) : afterSpace (trimStart s) = None.
Proof.
  induction s as [s E|s r E IH] using space_ind;
    rewrite trimStart_afterSpace, E; assumption.
Qed.

Lemma isBlank_append (a b : string) :
  isBlank a = true -> isBlank (a ++ b) = isBlank b.
Proof.
  induction a as [a E|a r E IH] using space_ind; rewrite isBlank_afterSpace, E.
  - destruct a; [reflexivity|discriminate].
  - intros Hr. destruct (afterSpace_Some _ _ E) as (w & -> & _ & Hw).
    rewrite append_assoc, (isBlank_afterSpace (w ++ _)), Hw. apply IH, Hr.
Qed.

Lemma trimStart_split (s : string) :
  exists a, s = a ++ trimStart s /\ isBlank a = true.
Proof.
  induction s as [s E|s r E IH] using space_ind; rewrite trimStart_afterSpace, E.
  - exists EmptyString. split; reflexivity.
  - destruct IH as (a & Ha & Hb).
    destruct (afterSpace_Some _ _ E) as (w & -> & _ & Hw).
    exists (w ++ a). split.
    + rewrite append_assoc. congruence.
    + rewrite isBlank_afterSpace, Hw. exact Hb.
Qed.

Lemma truthy_trimEnd (s : string) : truthy (trimEnd s) = negb (isBlank s).
Proof.
  destruct s as [|c s]; [reflexivity|]. cbn [trimEnd].
  destruct (isBlank (String c s)); reflexivity.
Qed.

Lemma trimEnd_split (s : string) :
  exists b, s = trimEnd s ++ b /\ isBlank b = true.
Proof.
  induction s as [|c s IH]; [exists EmptyString; split; reflexivity|].
  cbn [trimEnd]. destruct (isBlank (String c s)) eqn:E.
  - exists (String c s). split; [reflexivity|exact E].
  - destruct IH as (b & Hb & Hbl). exists b. split; [|exact Hbl].
    rewrite append_cons, <- Hb. reflexivity.
Qed.

Lemma isBlank_single (w : string) :
  afterSpace w = Some EmptyString -> isBlank w = true.
Proof. intros H. rewrite isBlank_afterSpace, H. reflexivity. Qed.

Lemma endsWithSpace_trimEnd (s : string) : endsWithSpace (trimEnd s) = false.
Proof.
  induction s as [|c s IH]; [reflexivity|].
  cbn [trimEnd]. destruct (isBlank (String c s)) eqn:E; [reflexivity|].
  cbn [endsWithSpace]. rewrite IH, orb_false_r.
  apply bool_decide_eq_false. intros Hw.
  destruct (trimEnd_split s) as (b & Hb & Hbl).
  assert (isBlank (String c s) = true); [|congruence].
  rewrite Hb, <- append_cons, isBlank_append; [exact Hbl|].
  apply isBlank_single, Hw.
Qed.

Lemma afterSpace_prefix (t b : string) :
  afterSpace (t ++ b) = None -> afterSpace t = None.
Proof.
  intros H. destruct (afterSpace t) as [r|] eqn:E; [|reflexivity].
  destruct (afterSpace_Some _ _ E) as (w & -> & _ & Hw).
  rewrite append_assoc, Hw in H. discriminate.
Qed.

(** [!s.trim()] holds exactly for the blank strings. *)
Lemma truthy_trim (s : string) : truthy (trim s) = negb (isBlank s).
Proof.
  unfold trim. rewrite truthy_trimEnd. f_equal.
  destruct (trimStart_split s) as (a & Ha & Hbl).
  rewrite Ha at 2. rewrite isBlank_append by exact Hbl. reflexivity.
Qed.

(** [trim] cuts a blank prefix and a blank suffix, and what it returns
    neither starts nor ends with white space. *)
Lemma trim_split (s : string) :
  exists a b, s = a ++ trim s ++ b /\ isBlank a = true /\ isBlank b = true
              /\ startsWithSpace (trim s) = false
              /\ endsWithSpace (trim s) = false.
Proof.
  destruct (trimStart_split s) as (a & Ha & Hbl).
  destruct (trimEnd_split (trimStart s)) as (b & Hb & Hbl').
  exists a, b. unfold trim. repeat split; try assumption.
  - rewrite <- Hb. exact Ha.
  - unfold startsWithSpace. apply bool_decide_eq_false.
    rewrite (afterSpace_prefix (trimEnd (trimStart s)) b).
    + intros [? [=]].
    + rewrite <- Hb. apply afterSpace_trimStart.
  - apply endsWithSpace_trimEnd.
Qed.

Lemma not_truthy s : truthy s = false -> s = EmptyString.
Proof. by destruct s. Qed.

Lemma orElse_Some s d : s <> EmptyString -> orElse (Some s) d = s.
Proof. by destruct s. Qed.

End JsFacts.

(** ** Orders: the workflow table and the transition controls *)

Module OrdersFacts.
Import Http Orders.

Lemma nextStatuses_outside s :
  s ∉ workflow -> nextStatuses !! s = None.
Proof. intros Hs. by apply not_elem_of_list_to_map_1. Qed.

Lemma workflow_cases s :
  s ∈ workflow ->
  s = "new" \/ s = "confirmed" \/ s = "preparing" \/ s = "delivering"
  \/ s = "completed" \/ s = "canceled".
Proof. unfold workflow. rewrite !elem_of_cons, elem_of_nil. tauto. Qed.

Lemma objectPrototype_outside s :
  s ∉ ["constructor"; "__defineGetter__"; "__defineSetter__"; "hasOwnProperty";
       "__lookupGetter__"; "__lookupSetter__"; "isPrototypeOf";
       "propertyIsEnumerable"; "toString"; "valueOf"; "__proto__";
       "toLocaleString"] ->
  objectPrototype !! s = None.
Proof. intros Hs. by apply not_elem_of_list_to_map_1. Qed.

Lemma objectPrototype_no_array s l :
  objectPrototype !! s = Some (StringArray l) -> False.
Proof.
  intros E. apply elem_of_list_to_map_2 in E.
  rewrite !elem_of_cons, elem_of_nil in E. intuition discriminate.
Qed.

Lemma nextStatuses_lookup s :
  nextStatuses !! s
    = (if bool_decide (s ∈ workflow) then Some (allowedNext s) else None).
Proof.
  case_bool_decide as Hs.
  - apply workflow_cases in Hs.
    destruct Hs as [->|[->|[->|[->|[->| ->]]]]]; by vm_compute.
  - by apply nextStatuses_outside.
Qed.

(** C1.  Looked up at one of the six statuses, the workflow table of
    the code gives the list the specification gives ([completed] and
    [canceled] have none), and the page renders one control per listed
    status.  It has no own entry for any other string, but the lookup
    [nextStatuses[status]] also finds what the object inherits: for
    the eight names of the [Object.prototype] functions that take
    arguments ([constructor], [hasOwnProperty], ...) the guard
    [?.length > 0] holds and the call of [map] throws, so a status with
    such a name is not rendered as "no actions" but takes the page
    down.  For every remaining string nothing is rendered. *)
Theorem nextStatuses_table_and_inherited_keys (s : string) :
  nextStatuses !! s
    = (if bool_decide (s ∈ workflow) then Some (allowedNext s) else None)
  /\ allowedNext "new" = ["confirmed"; "canceled"]
  /\ allowedNext "confirmed" = ["preparing"; "canceled"]
  /\ allowedNext "preparing" = ["delivering"; "canceled"]
  /\ allowedNext "delivering" = ["completed"; "canceled"]
  /\ allowedNext "completed" = []
  /\ allowedNext "canceled" = []
  /\ controls s
     = (if bool_decide (s ∈ workflow) then Shown (allowedNext s)
        else if bool_decide
                  (s ∈ ["constructor"; "__defineGetter__"; "__defineSetter__";
                        "hasOwnProperty"; "__lookupGetter__";
                        "__lookupSetter__"; "isPrototypeOf";
                        "propertyIsEnumerable"])
        then Throws
        else Shown [])
  /\ ("constructor" ∉ workflow)
  /\ controls "constructor" = Throws.
Proof.
  split; [apply nextStatuses_lookup|].
  do 6 (split; [reflexivity|]).
  split; [|split; [|reflexivity]];
    [|intros Hin; apply workflow_cases in Hin; intuition discriminate].
  unfold controls, getProperty. rewrite nextStatuses_lookup.
  case_bool_decide as Hs.
  - apply workflow_cases in Hs.
    destruct Hs as [->|[->|[->|[->|[->| ->]]]]]; by vm_compute.
  - case_bool_decide as Hp.
    + rewrite !elem_of_cons, elem_of_nil in Hp.
      destruct Hp as [->|[->|[->|[->|[->|[->|[->|[->|[]]]]]]]]]; by vm_compute.
    + destruct (decide (s ∈ ["toString"; "valueOf"; "__proto__";
                             "toLocaleString"])) as [Hq|Hq].
      * rewrite !elem_of_cons, elem_of_nil in Hq.
        destruct Hq as [->|[->|[->|[->|[]]]]]; by vm_compute.
      * rewrite objectPrototype_outside; [reflexivity|].
        rewrite !elem_of_cons, elem_of_nil in *. tauto.
Qed.

(** The only status update [handleStatusChange] sends is the one it was
    called for. *)
Lemma handleStatusChange_put srv i v st orderId target :
  PutOrderStatus orderId target ∈ (handleStatusChange srv i v st).2 ->
  orderId = i /\ target = v.
Proof.
  unfold handleStatusChange, fetchOrders.
  destruct (putOrderStatus srv i v) as [[]|err];
    [destruct (getOrders srv _), (isSelected _ _)|]; cbn;
    rewrite ?elem_of_cons, ?elem_of_nil; intuition congruence.
Qed.

Lemma offered_lookup status v :
  v ∈ offered status -> exists l, nextStatuses !! status = Some l /\ v ∈ l.
Proof.
  unfold offered, controls, getProperty.
  destruct (nextStatuses !! status) as [l|].
  - destruct (0 <? length l)%nat; [eauto|]. by rewrite elem_of_nil.
  - destruct (objectPrototype !! status) as [[|l|[|n]|]|] eqn:E; cbn;
      try (intros Hin; exfalso; revert Hin; apply not_elem_of_nil).
    by apply objectPrototype_no_array in E.
Qed.

Lemma selectOptions_offered o v :
  v ∈ selectOptions o -> Js.truthy v = true -> v ∈ offered (Order.status o).
Proof.
  unfold selectOptions. destruct (offered (Order.status o)) as [|x l].
  - by rewrite elem_of_nil.
  - rewrite (elem_of_cons (x :: l)). intros [->|H]; [done|]. by intros _.
Qed.

(** C2.  Whatever the state of the page and whatever the server
    answers, a deliverable event makes the client send
    [PUT /orders/{id}/status] only for the order its control is
    rendered for, and only with a target that [nextStatuses] lists for
    the status that order currently has on the page: the row's
    [<select>] holds the placeholder (which the handler drops) and the
    listed statuses, and the modal has one button per listed status. *)
Theorem status_update_only_to_next_status {engine : Js.Engine}
    (srv : Server) (st : State) (ev : Event) (orderId : Z) (target : string) :
  enabled st ev = true ->
  PutOrderStatus orderId target ∈ (handle srv st ev).2 ->
  exists o l,
    subject st ev = Some o /\ Order.id o = orderId
    /\ nextStatuses !! Order.status o = Some l /\ target ∈ l.
Proof.
  destruct ev as [s|text|row|row value|s|]; simpl; intros Hen Hput.
  - destruct (String.eqb s (activeTab st)); simpl in Hput.
    + by apply elem_of_nil in Hput.
    + rewrite elem_of_cons, elem_of_nil in Hput. by destruct Hput.
  - by apply elem_of_nil in Hput.
  - destruct (filtered st !! row); by apply elem_of_nil in Hput.
  - destruct (filtered st !! row) as [o|]; [|by rewrite andb_false_r in Hen].
    apply andb_true_iff in Hen as [_ Hen].
    apply andb_true_iff in Hen as [_ Hin]. apply bool_decide_eq_true in Hin.
    destruct (Js.truthy value) eqn:Hv; [|by apply elem_of_nil in Hput].
    apply handleStatusChange_put in Hput as [-> ->].
    destruct (offered_lookup (Order.status o) value) as (l & Hl & Hvl);
      [by apply selectOptions_offered|]. eauto 6.
  - destruct (selectedOrder st) as [sel|]; [|done].
    apply andb_true_iff in Hen as [_ Hin]. apply bool_decide_eq_true in Hin.
    apply handleStatusChange_put in Hput as [-> ->].
    destruct (offered_lookup (Order.status sel) s) as (l & Hl & Hsl); [done|].
    eauto 6.
  - by apply elem_of_nil in Hput.
Qed.

Lemma status_update_only_to_next_status_witness :
  exists o l,
    subject Sample.ordersLoaded (SelectChange 0 "confirmed") = Some o
    /\ Order.id o = 7
    /\ nextStatuses !! Order.status o = Some l /\ "confirmed" ∈ l.
Proof.
  apply (status_update_only_to_next_status
           (Sample.ordersServer (Ok tt) (Ok [Sample.order7]) (Ok Sample.order7))).
  - vm_compute. reflexivity.
  - vm_compute. constructor.
Defined.

(** A response body whose [error] field is the empty string: the field
    is present, and the page shows the generic message instead of it. *)
Lemma empty_error_field_shows_fallback :
  let err := Sample.body (Some EmptyString) in
  let srv := Sample.ordersServer (Err err) (Ok []) (Ok Sample.order7) in
  let st' := (handleStatusChange srv 7 "confirmed" Sample.ordersLoaded).1 in
  putOrderStatus srv 7 "confirmed" = Err err
  /\ errorField err = Some EmptyString
  /\ error st' = "Не удалось обновить статус заказа #7"
  /\ error st' <> EmptyString.
Proof. vm_compute. by repeat split. Qed.

(** C3 (amended).  When the status update is rejected, the page shows
    the [error] field of the response body if the body has one and it
    is not the empty string, and the generic message naming the order
    otherwise (no response, no body, no field, or an empty one); the
    orders list, the search, hence the rows shown, and the order in the
    modal are as before, and nothing but the update was sent. *)
Theorem failed_status_update_reports_and_keeps_orders {engine : Js.Engine}
    (srv : Server) (st : State) (orderId : Z) (newStatus : string)
    (err : AxiosError) :
  putOrderStatus srv orderId newStatus = Err err ->
  let st' := (handleStatusChange srv orderId newStatus st).1 in
  (forall e, errorField err = Some e -> e <> EmptyString -> error st' = e)
  /\ (errorField err = None \/ errorField err = Some EmptyString ->
      error st' = "Не удалось обновить статус заказа #" ++ Js.toString orderId)
  /\ orders st' = orders st
  /\ filtered st' = filtered st
  /\ selectedOrder st' = selectedOrder st
  /\ updatingId st' = None
  /\ (handleStatusChange srv orderId newStatus st).2
     = [PutOrderStatus orderId newStatus].
Proof.
  intros Hput. unfold handleStatusChange. rewrite Hput. cbn.
  split; [|split; [|done]].
  - intros e -> He. by apply JsFacts.orElse_Some.
  - by intros [-> | ->].
Qed.

Lemma failed_status_update_reports_and_keeps_orders_witness :
  let err := Sample.body (Some "Order is already completed") in
  let srv := Sample.ordersServer (Err err) (Ok []) (Ok Sample.order7) in
  let st' := (handleStatusChange srv 7 "confirmed" Sample.ordersModal).1 in
  error st' = "Order is already completed"
  /\ orders st' = [Sample.order7]
  /\ selectedOrder st' = Some Sample.order7.
Proof.
  pose (err := Sample.body (Some "Order is already completed")).
  pose (srv := Sample.ordersServer (Err err) (Ok []) (Ok Sample.order7)).
  destruct (failed_status_update_reports_and_keeps_orders
              srv Sample.ordersModal 7 "confirmed" err eq_refl)
    as (Hshown & _ & Horders & _ & Hsel & _).
  split; [|split].
  - apply Hshown; [reflexivity | discriminate].
  - exact Horders.
  - exact Hsel.
Defined.

(** The update succeeds, the list re-fetch returns the order still as
    [new] and the detail re-fetch fails: the modal shows [confirmed],
    a status that no reply carried. *)
Lemma failed_detail_refetch_patches_modal :
  let srv := Sample.ordersServer (Ok tt) (Ok [Sample.order7])
               (Err Sample.networkError) in
  let st' := (handleStatusChange srv 7 "confirmed" Sample.ordersModal).1 in
  Order.status <$> selectedOrder Sample.ordersModal = Some "new"
  /\ Order.status <$> orders st' = ["new"]
  /\ getOrder srv 7 = Err Sample.networkError
  /\ Order.status <$> selectedOrder st' = Some "confirmed".
Proof. vm_compute. by repeat split. Qed.

(** C6 (amended).  After a successful status update the page asks the
    server for the list of the active tab again; the orders list becomes
    that reply, or stays as it was when the re-fetch fails, and is never
    patched.  The order in the modal is touched only when it is the
    updated one: it becomes the re-fetched order, and when that re-fetch
    fails it is the previous one with the requested status written into
    it. *)
Theorem successful_status_update_refetches
    (srv : Server) (st : State) (orderId : Z) (newStatus : string) :
  putOrderStatus srv orderId newStatus = Ok tt ->
  let st' := (handleStatusChange srv orderId newStatus st).1 in
  let sent := (handleStatusChange srv orderId newStatus st).2 in
  let params := if String.eqb (activeTab st) "all" then None
                else Some (activeTab st) in
  take 2 sent = [PutOrderStatus orderId newStatus; GetOrders params]
  /\ orders st' = match getOrders srv params with
                  | Ok d => d
                  | Err _ => orders st
                  end
  /\ selectedOrder st'
     = if isSelected st orderId then
         match getOrder srv orderId with
         | Ok d => Some d
         | Err _ => (fun prev => Order.withStatus prev newStatus) <$> selectedOrder st
         end
       else selectedOrder st.
Proof.
  intros Hput. unfold handleStatusChange, fetchOrders, isSelected.
  rewrite Hput. cbn.
  destruct (getOrders srv _), (selectedOrder st) as [sel|] eqn:Hsel; cbn;
    try destruct (Order.id sel =? orderId); cbn;
    destruct (getOrder srv orderId); cbn; rewrite ?Hsel; by repeat split.
Qed.

Lemma successful_status_update_refetches_witness :
  let srv := Sample.ordersServer (Ok tt)
               (Ok [Order.withStatus Sample.order7 "confirmed"])
               (Ok (Order.withStatus Sample.order7 "confirmed")) in
  let st' := (handleStatusChange srv 7 "confirmed" Sample.ordersModal).1 in
  orders st' = [Order.withStatus Sample.order7 "confirmed"]
  /\ selectedOrder st' = Some (Order.withStatus Sample.order7 "confirmed").
Proof.
  pose (srv := Sample.ordersServer (Ok tt)
                 (Ok [Order.withStatus Sample.order7 "confirmed"])
                 (Ok (Order.withStatus Sample.order7 "confirmed"))).
  destruct (successful_status_update_refetches
              srv Sample.ordersModal 7 "confirmed" eq_refl)
    as (_ & Horders & Hsel).
  split; [exact Horders | exact Hsel].
Defined.

End OrdersFacts.

(** ** The search boxes of the three list views *)

Module SearchFacts.
Import Js JsFacts.

(** The guard [if (!search.trim()) return true] of the three filters. *)
Lemma guard_blank q : negb (truthy (trim q)) = isBlank q.
Proof. by rewrite truthy_trim, negb_involutive. Qed.

Lemma orders_matches_blank {engine : Engine} q o : isBlank q = true -> Orders.matches q o = true.
Proof. intros Hq. unfold Orders.matches. by rewrite guard_blank, Hq. Qed.

Lemma loyalty_matches_blank {engine : Engine} q u : isBlank q = true -> Loyalty.matches q u = true.
Proof. intros Hq. unfold Loyalty.matches. by rewrite guard_blank, Hq. Qed.

Lemma users_matches_blank {engine : Engine} q u : isBlank q = true -> Users.matches q u = true.
Proof. intros Hq. unfold Users.matches. by rewrite guard_blank, Hq. Qed.

Lemma filter_all {A} (p : A -> bool) (l : list A) :
  (forall x, p x = true) -> List.filter p l = l.
Proof.
  intros Hp. induction l as [|x l IH]; simpl; [done|]. by rewrite Hp, IH.
Qed.

(** Two queries that lower-case to the same string and are blank
    together pass the same guard and are compared alike. *)
Section SameLetters.
Context {engine : Engine}.
Variables q1 q2 : string.
Hypothesis same : toLowerCase q1 = toLowerCase q2.
Hypothesis together : isBlank q1 = isBlank q2.

Lemma orders_matches_same o : Orders.matches q1 o = Orders.matches q2 o.
Proof. unfold Orders.matches. by rewrite !guard_blank, together, same. Qed.

Lemma loyalty_matches_same u : Loyalty.matches q1 u = Loyalty.matches q2 u.
Proof. unfold Loyalty.matches. by rewrite !guard_blank, together, same. Qed.

Lemma users_matches_same u : Users.matches q1 u = Users.matches q2 u.
Proof. unfold Users.matches. by rewrite !guard_blank, together, same. Qed.
End SameLetters.

(** In the orders view a customer whose username contains the query,
    letter case aside, is not found: the filter does not look at the
    username.  (The strings are ASCII, on which [asciiEngine] is the
    built-in.) *)
Lemma orders_search_skips_username :
  OrderUser.username (Order.user Sample.order7) = Some "Rose"
  /\ includes (toLowerCase "Rose") (toLowerCase "ROSE") = true
  /\ Orders.matches "ROSE" Sample.order7 = false
  /\ Orders.filtered (Orders.setSearch "ROSE" Sample.ordersLoaded) = [].
Proof. vm_compute. by repeat split. Qed.

(** The phone is compared as stored with the lower-cased query, so a
    letter in a phone matches in lower case only. *)
Example loyalty_phone_is_not_folded :
  LoyaltyUser.phone Sample.ivan = Some "ABC-100"
  /\ Loyalty.matches "ABC" Sample.ivan = false
  /\ Loyalty.matches "-100" Sample.ivan = true.
Proof. vm_compute. by repeat split. Qed.

(** C4 (amended).  In the three list views, two search strings that
    differ only in the case of their letters (they lower-case to the
    same string and, white space having no case, are blank together)
    select the same records, whatever the alphabet.  A record is
    selected when its lower-cased name contains the lower-cased query,
    in the loyalty and users views also when its lower-cased username
    does, and in every view when its phone, as stored, contains the
    lower-cased query.  (The orders view does not search the
    username.) *)
Theorem search_ignores_case_of_query {engine : Engine} (q1 q2 : string) :
  toLowerCase q1 = toLowerCase q2 ->
  isBlank q1 = isBlank q2 ->
  (forall o, Orders.matches q1 o = Orders.matches q2 o)
  /\ (forall u, Loyalty.matches q1 u = Loyalty.matches q2 u)
  /\ (forall u, Users.matches q1 u = Users.matches q2 u)
  /\ (forall o,
        includes (toLowerCase (Orders.customerName o)) (toLowerCase q1) = true
        \/ includes (orElse (OrderUser.phone (Order.user o)) EmptyString)
             (toLowerCase q1) = true ->
        Orders.matches q1 o = true)
  /\ (forall u,
        includes (toLowerCase (Loyalty.fullName u)) (toLowerCase q1) = true
        \/ includes (toLowerCase (orElse (LoyaltyUser.username u) EmptyString))
             (toLowerCase q1) = true
        \/ includes (orElse (LoyaltyUser.phone u) EmptyString)
             (toLowerCase q1) = true ->
        Loyalty.matches q1 u = true)
  /\ (forall u,
        includes (toLowerCase (Users.fullName u)) (toLowerCase q1) = true
        \/ includes (toLowerCase (orElse (UserItem.username u) EmptyString))
             (toLowerCase q1) = true
        \/ includes (orElse (UserItem.phone u) EmptyString)
             (toLowerCase q1) = true ->
        Users.matches q1 u = true).
Proof.
  intros same together. repeat split.
  - intros o. by apply orders_matches_same.
  - intros u. by apply loyalty_matches_same.
  - intros u. by apply users_matches_same.
  - intros o Hin. unfold Orders.matches.
    destruct (negb (truthy (trim q1))); [done|].
    destruct Hin as [-> | ->]; by rewrite ?orb_true_r.
  - intros u Hin. unfold Loyalty.matches.
    destruct (negb (truthy (trim q1))); [done|].
    destruct Hin as [-> | [-> | ->]]; by rewrite ?orb_true_r.
  - intros u Hin. unfold Users.matches.
    destruct (negb (truthy (trim q1))); [done|].
    destruct Hin as [-> | [-> | ->]]; by rewrite ?orb_true_r.
Qed.

Lemma search_ignores_case_of_query_witness :
  Orders.matches "aNNa" Sample.order7 = Orders.matches "Anna" Sample.order7
  /\ Loyalty.matches "aNNa" Sample.ivan = Loyalty.matches "Anna" Sample.ivan
  /\ Users.matches "aNNa" Sample.maria = Users.matches "Anna" Sample.maria
  /\ Orders.matches "aNNa" Sample.order7 = true.
Proof.
  destruct (search_ignores_case_of_query (engine := asciiEngine)
              "aNNa" "Anna" eq_refl eq_refl)
    as (Ho & Hl & Hu & Hname & _).
  split; [|split; [|split]].
  - apply Ho.
  - apply Hl.
  - apply Hu.
  - apply Hname. left. vm_compute. reflexivity.
Defined.

(** C10.  With a search string that is empty or holds white space only
    (any of the characters [trim] strips, so a no-break space as well as
    a blank or a tab), each of the three list views shows its whole
    list, every element in its place. *)
Theorem blank_search_shows_whole_list {engine : Engine}
    (q : string) (orders : Orders.State) (loyalty : Loyalty.State)
    (users : Users.State) :
  isBlank q = true ->
  Orders.search orders = q ->
  Loyalty.search loyalty = q ->
  Users.search users = q ->
  Orders.filtered orders = Orders.orders orders
  /\ Loyalty.filtered loyalty = Loyalty.users loyalty
  /\ Users.filtered users = Users.users users.
Proof.
  intros Hq Ho Hl Hu.
  unfold Orders.filtered, Loyalty.filtered, Users.filtered.
  rewrite Ho, Hl, Hu. repeat split; apply filter_all; intros x.
  - by apply orders_matches_blank.
  - by apply loyalty_matches_blank.
  - by apply users_matches_blank.
Qed.

(** A blank, a tab, a no-break space (U+00A0) and a line separator
    (U+2028). *)
Lemma blank_search_shows_whole_list_witness :
  let blank :=
    String " " (String "009" (String "194" (String "160"
      (String "226" (String "128" (String "168" EmptyString)))))) in
  Orders.filtered (Orders.setSearch blank Sample.ordersLoaded) = [Sample.order7]
  /\ Loyalty.filtered (Loyalty.setSearch blank Sample.loyaltyForm) = [Sample.ivan]
  /\ Users.filtered {| Users.users := [Sample.maria]; Users.loading := false;
                       Users.search := blank |} = [Sample.maria].
Proof.
  apply (blank_search_shows_whole_list
           (String " " (String "009" (String "194" (String "160"
              (String "226" (String "128" (String "168" EmptyString))))))));
    reflexivity.
Defined.

End SearchFacts.

(** ** Loyalty: manual adjustment *)

Module LoyaltyFacts.
Import Http Loyalty.

Lemma Number_empty : Number EmptyString = Some 0.
Proof. reflexivity. Qed.

Example Number_credit : Number "+100" = Some 100 /\ Number "100" = Some 100.
Proof. by vm_compute. Qed.

Example Number_debit : Number "-30" = Some (-30) /\ Number " 7 " = Some 7.
Proof. by vm_compute. Qed.

Example Number_outside : Number "1.5" = None /\ Number "abc" = None.
Proof. by vm_compute. Qed.

(** The adjustment is accepted, and the history request that follows
    is answered with the ledger the modal already showed: the handler
    completes, the balance reads 150, and the history shown has gained
    no entry. *)
Lemma accepted_adjustment_with_old_ledger_adds_no_entry :
  let st := Sample.loyaltyForm in
  let srv := Sample.laggingServer in
  displayedBalance st = Some 50
  /\ Number (adjustAmount st) = Some 100
  /\ postAdjust srv 3 100 None = Ok tt
  /\ exists st',
       handleAdjust srv st
         = Some (st', [PostAdjust 3 100 None; GetLoyalty; GetHistory 3])
       /\ error st' = EmptyString
       /\ displayedBalance st' = Some 150
       /\ history st' = history st
       /\ Forall (fun e => HistoryEntry.amount e <> 100) (history st').
Proof.
  split; [reflexivity|]. split; [reflexivity|]. split; [reflexivity|].
  eexists. split; [reflexivity|]. cbn.
  split; [reflexivity|]. split; [reflexivity|]. split; [reflexivity|].
  repeat constructor. discriminate.
Qed.

(** C5 (amended).  The modal is open on a user whose balance reads 50
    and the form holds an amount that [Number] reads as 100.  When the
    adjustment is accepted and the history request that follows it is
    answered, the handler ends with the modal's balance at 150 (the
    local increment) and with the history the server answered, whatever
    it is: the client adds no entry of its own, so the history shown is
    the previous one plus one entry exactly when the answer is. *)
Theorem adjust_credit_100_on_balance_50
    (srv : Server) (st : State) (sel : LoyaltyUser.t)
    (ledger : list HistoryEntry.t) :
  selectedUser st = Some sel ->
  LoyaltyUser.bonusPoints sel = 50 ->
  Number (adjustAmount st) = Some 100 ->
  postAdjust srv (LoyaltyUser.id sel) 100
    (descriptionField (adjustDescription st)) = Ok tt ->
  getHistory srv (LoyaltyUser.id sel) = Ok ledger ->
  exists st',
    handleAdjust srv st
      = Some (st', [PostAdjust (LoyaltyUser.id sel) 100
                      (descriptionField (adjustDescription st));
                    GetLoyalty; GetHistory (LoyaltyUser.id sel)])
    /\ displayedBalance st' = Some 150
    /\ history st' = ledger
    /\ (forall entry,
          history st' ≡ₚ entry :: history st <-> ledger ≡ₚ entry :: history st)
    /\ adjusting st' = false.
Proof.
  intros Hsel Hbal Hnum Hpost Hhist.
  assert (Htruthy : Js.truthy (adjustAmount st) = true).
  { destruct (adjustAmount st); [by rewrite Number_empty in Hnum | done]. }
  unfold handleAdjust. rewrite Hsel, Htruthy, Hnum. cbn.
  rewrite Hpost. unfold fetchUsers.
  destruct (getLoyalty srv); cbn; rewrite Hhist; cbn; rewrite Hsel;
    (eexists; split; [reflexivity|]); cbn; rewrite Hbal;
    (repeat split; done).
Qed.

Lemma adjust_credit_100_on_balance_50_witness :
  exists st',
    handleAdjust Sample.loyaltyServer Sample.loyaltyForm
      = Some (st', [PostAdjust 3 100 None; GetLoyalty; GetHistory 3])
    /\ displayedBalance st' = Some 150
    /\ history st' = [Sample.credit; Sample.welcome]
    /\ (forall entry,
          history st' ≡ₚ entry :: history Sample.loyaltyForm
          <-> [Sample.credit; Sample.welcome]
                ≡ₚ entry :: history Sample.loyaltyForm)
    /\ adjusting st' = false.
Proof.
  apply (adjust_credit_100_on_balance_50 Sample.loyaltyServer Sample.loyaltyForm
           Sample.ivan [Sample.credit; Sample.welcome]);
    reflexivity.
Defined.

End LoyaltyFacts.

(** ** Catalog toggles *)

Module CatalogFacts.
Import Http.

Lemma Bouquet_set_get f v b : Bouquet.get f (Bouquet.set f v b) = v.
Proof. by destruct f. Qed.

Lemma Bouquet_set_other f g v b :
  g <> f -> Bouquet.get g (Bouquet.set f v b) = Bouquet.get g b.
Proof. by destruct f, g. Qed.

Lemma Bouquet_set_rest f v b :
  Bouquet.id (Bouquet.set f v b) = Bouquet.id b
  /\ Bouquet.name (Bouquet.set f v b) = Bouquet.name b
  /\ Bouquet.price (Bouquet.set f v b) = Bouquet.price b
  /\ Bouquet.category (Bouquet.set f v b) = Bouquet.category b
  /\ Bouquet.images (Bouquet.set f v b) = Bouquet.images b.
Proof. by destruct f. Qed.

Lemma update_same d k v : ConstructorManager.update d k v k = v.
Proof. by destruct k. Qed.

Lemma update_other d k k' v :
  k' <> k -> ConstructorManager.update d k v k' = d k'.
Proof. by destruct k, k'. Qed.

(** C7.  A toggle that the server accepts sends its one partial update
    and nothing else (no list is fetched again), and patches the list in
    place.  On the bouquets page the record at each position keeps its
    place; one whose id is not the toggled id is unchanged, and one whose
    id is has the toggled flag at the new value and every other field,
    the two other flags included, as before.  On the constructor page
    the same holds for the list of the active tab, with [inStock] as the
    flag and [id || _id] as the id, and the lists of the other tabs are
    unchanged. *)
Theorem toggle_changes_one_flag_of_one_record
    (bsrv : Bouquets.Server) (bst : Bouquets.State) (id : Z)
    (field : Bouquet.Field) (value : bool) (pos : nat) (b : Bouquet.t)
    (csrv : ConstructorManager.Server) (cst : ConstructorManager.State)
    (clicked : ConstructorItem.t) (cpos : nat) (c : ConstructorItem.t) :
  Bouquets.patchToggle bsrv id field value = Ok tt ->
  Bouquets.bouquets bst !! pos = Some b ->
  ConstructorManager.putItem csrv
    (ConstructorManager.endpoint (ConstructorManager.activeTab cst))
    (ConstructorItem.key clicked) (ConstructorManager.notInStock clicked) = Ok tt ->
  ConstructorManager.data cst (ConstructorManager.activeTab cst) !! cpos = Some c ->
  let bst' := (Bouquets.handleToggle bsrv id field value bst).1 in
  let cst' := (ConstructorManager.handleToggleStock csrv clicked cst).1 in
  ((Bouquets.handleToggle bsrv id field value bst).2
     = [Bouquets.PatchToggle id field value]
   /\ length (Bouquets.bouquets bst') = length (Bouquets.bouquets bst)
   /\ exists b',
        Bouquets.bouquets bst' !! pos = Some b'
        /\ (Bouquet.id b <> id -> b' = b)
        /\ (Bouquet.id b = id -> Bouquet.get field b' = value)
        /\ (forall g, g <> field -> Bouquet.get g b' = Bouquet.get g b)
        /\ Bouquet.id b' = Bouquet.id b
        /\ Bouquet.name b' = Bouquet.name b
        /\ Bouquet.price b' = Bouquet.price b
        /\ Bouquet.category b' = Bouquet.category b
        /\ Bouquet.images b' = Bouquet.images b)
  /\ ((ConstructorManager.handleToggleStock csrv clicked cst).2
        = [ConstructorManager.PutItem
             (ConstructorManager.endpoint (ConstructorManager.activeTab cst))
             (ConstructorItem.key clicked) (ConstructorManager.notInStock clicked)]
      /\ ConstructorManager.activeTab cst' = ConstructorManager.activeTab cst
      /\ (forall k, k <> ConstructorManager.activeTab cst ->
                    ConstructorManager.data cst' k = ConstructorManager.data cst k)
      /\ length (ConstructorManager.data cst' (ConstructorManager.activeTab cst))
         = length (ConstructorManager.data cst (ConstructorManager.activeTab cst))
      /\ exists c',
           ConstructorManager.data cst' (ConstructorManager.activeTab cst) !! cpos
             = Some c'
           /\ (ConstructorItem.key c <> ConstructorItem.key clicked -> c' = c)
           /\ (ConstructorItem.key c = ConstructorItem.key clicked ->
               ConstructorItem.inStock c'
                 = Some (ConstructorManager.notInStock clicked))
           /\ ConstructorItem.id c' = ConstructorItem.id c
           /\ ConstructorItem._id c' = ConstructorItem._id c
           /\ ConstructorItem.name c' = ConstructorItem.name c
           /\ ConstructorItem.price c' = ConstructorItem.price c).
Proof.
  intros Hpatch Hb Hput Hc. split.
  - unfold Bouquets.handleToggle. rewrite Hpatch. cbn.
    split; [done|]. split; [by rewrite length_map|].
    rewrite list_lookup_fmap, Hb. cbn.
    destruct (Z.eqb_spec (Bouquet.id b) id) as [Heq|Hne].
    + eexists. split; [done|].
      pose proof (Bouquet_set_rest field value b) as (? & ? & ? & ? & ?).
      repeat split; try done.
      * by rewrite Bouquet_set_get.
      * intros g Hg. by apply Bouquet_set_other.
    + exists b. by repeat split.
  - unfold ConstructorManager.handleToggleStock. rewrite Hput. cbn.
    rewrite update_same.
    split; [done|]. split; [done|].
    split; [intros k Hk; by apply update_other|].
    split; [by rewrite length_map|].
    rewrite list_lookup_fmap, Hc. cbn.
    case_bool_decide as Hkey.
    + eexists. by repeat split.
    + exists c. by repeat split.
Qed.

Lemma toggle_changes_one_flag_of_one_record_witness :
  let bst' := (Bouquets.handleToggle Sample.bouquetsServer 12 Bouquet.InStock false
                 Sample.bouquetsLoaded).1 in
  let cst' := (ConstructorManager.handleToggleStock Sample.constructorServer
                 Sample.ribbon Sample.constructorLoaded).1 in
  (exists b',
     Bouquets.bouquets bst' !! 1%nat = Some b'
     /\ Bouquet.inStock b' = false /\ Bouquet.isHit b' = true
     /\ Bouquet.name b' = "Peonies")
  /\ (exists c',
        ConstructorManager.data cst' ConstructorManager.packaging !! 1%nat = Some c'
        /\ c' = Sample.paper).
Proof.
  destruct (toggle_changes_one_flag_of_one_record
              Sample.bouquetsServer Sample.bouquetsLoaded 12 Bouquet.InStock false
              1%nat Sample.peonies
              Sample.constructorServer Sample.constructorLoaded
              Sample.ribbon 1%nat Sample.paper
              eq_refl eq_refl eq_refl eq_refl)
    as [(_ & _ & b' & Hb' & _ & Hflag & Hother & _ & Hname & _)
        (_ & _ & _ & _ & c' & Hc' & Hsame & _)].
  split.
  - exists b'. split; [exact Hb'|]. split; [|split].
    + apply (Hflag eq_refl).
    + apply (Hother Bouquet.IsHit). discriminate.
    + exact Hname.
  - exists c'. split; [exact Hc'|]. apply Hsame. discriminate.
Defined.

End CatalogFacts.

(** ** Application shell: the authentication check at start-up *)

Module AppFacts.
Import Http App.

Lemma screen_unauthenticated st path :
  isAuth st = Some false -> screen 1 st path = Some Login.
Proof.
  intros Hauth. cbn [screen]. unfold render at 1. rewrite Hauth.
  destruct (matchesRoute "/login" path); [done|].
  unfold render. by rewrite Hauth.
Qed.

(** C8.  When the browser holds a token and the check [GET /auth/me]
    fails, the token is removed from local storage (nothing else in it
    changes), the authentication flag becomes [false], so that every
    location ends on the login screen, and the check was sent exactly
    once. *)
Theorem failed_auth_check_clears_token_and_shows_login
    (srv : Server) (st : State) (token : string) (err : AxiosError) :
  localStorage st !! tokenKey = Some token ->
  token <> EmptyString ->
  getAuthMe srv = Err err ->
  let st' := (onMount srv st).1 in
  tokenKey = "rosa_admin_token"
  /\ localStorage st' = delete tokenKey (localStorage st)
  /\ localStorage st' !! tokenKey = None
  /\ (forall k, k <> tokenKey -> localStorage st' !! k = localStorage st !! k)
  /\ isAuth st' = Some false
  /\ (forall path, screen 1 st' path = Some Login)
  /\ (onMount srv st).2 = [GetAuthMe].
Proof.
  intros Htoken Hne Herr.
  assert (Hrun : onMount srv st
            = ({| localStorage := delete tokenKey (localStorage st);
                  isAuth := Some false |}, [GetAuthMe])).
  { unfold onMount. rewrite Htoken, Herr. by destruct token. }
  rewrite Hrun. cbn [fst snd localStorage isAuth].
  split; [done|]. split; [done|].
  split; [apply lookup_delete_eq|].
  split; [intros k Hk; by apply lookup_delete_ne|].
  split; [done|]. split; [|done].
  intros path. by apply screen_unauthenticated.
Qed.

Lemma failed_auth_check_clears_token_and_shows_login_witness :
  let st' := (onMount Sample.rejectingAuth Sample.staleSession).1 in
  localStorage st' !! "rosa_admin_token" = None
  /\ isAuth st' = Some false
  /\ screen 1 st' "/orders" = Some Login
  /\ (onMount Sample.rejectingAuth Sample.staleSession).2 = [GetAuthMe].
Proof.
  destruct (failed_auth_check_clears_token_and_shows_login
              Sample.rejectingAuth Sample.staleSession "expired-token"
              Sample.networkError)
    as (_ & _ & Hgone & _ & Hauth & Hlogin & Hsent).
  - vm_compute. reflexivity.
  - discriminate.
  - reflexivity.
  - split; [exact Hgone|]. split; [exact Hauth|].
    split; [apply Hlogin | exact Hsent].
Defined.

End AppFacts.

(** ** Broadcast: the send guard *)

Module BroadcastFacts.
Import Http Broadcast Js JsFacts.

Lemma beginSend_request confirmed st m :
  PostBroadcast m ∈ (beginSend confirmed st).2 ->
  m = trim (message st) /\ isBlank (message st) = false
  /\ confirmed = true /\ sending (beginSend confirmed st).1 = true.
Proof.
  unfold beginSend. rewrite truthy_trim, negb_involutive.
  destruct (isBlank (message st)); [by rewrite elem_of_nil|].
  destruct confirmed; cbn; [|by rewrite elem_of_nil].
  rewrite elem_of_cons, elem_of_nil. intros [Heq|[]].
  injection Heq as ->. done.
Qed.

Lemma handleSend_requests srv confirmed st :
  (handleSend srv confirmed st).2 = (beginSend confirmed st).2.
Proof.
  unfold handleSend.
  destruct (beginSend confirmed st) as [st' [|[m] l]]; reflexivity.
Qed.

(** C9.  For a message that is empty or holds white space only (any of
    the characters [trim] strips: a no-break space as well as a blank,
    a tab or a line break) the handler sends nothing and the send button
    is disabled.  A request
    the handler does send is its only one and carries the trimmed
    message (the message without the white space around it), which is
    then not blank, and while that request is in flight (between the two
    halves of the handler) the send button is disabled. *)
Theorem broadcast_sends_trimmed_nonblank_message
    (srv : Server) (confirmed : bool) (st : State) :
  (isBlank (message st) = true ->
     (handleSend srv confirmed st).2 = [] /\ sendDisabled st = true)
  /\ (forall m, PostBroadcast m ∈ (handleSend srv confirmed st).2 ->
        m = trim (message st) /\ isBlank (message st) = false
        /\ (exists a b, message st = a ++ m ++ b
                         /\ isBlank a = true /\ isBlank b = true
                         /\ startsWithSpace m = false
                         /\ endsWithSpace m = false)
        /\ (handleSend srv confirmed st).2 = [PostBroadcast m]
        /\ sendDisabled (beginSend confirmed st).1 = true).
Proof.
  split.
  - intros Hblank. unfold handleSend, beginSend, sendDisabled.
    rewrite truthy_trim, Hblank. cbn. by rewrite orb_true_r.
  - intros m. rewrite handleSend_requests. intros Hm.
    destruct (beginSend_request _ _ _ Hm) as (-> & Hblank & -> & Hsending).
    split; [done|]. split; [done|]. split; [apply trim_split|]. split.
    + unfold beginSend. by rewrite truthy_trim, Hblank.
    + unfold sendDisabled. by rewrite Hsending.
Qed.

(** A message of a blank and a no-break space (U+00A0), and one with
    white space of both kinds around its text. *)
Lemma broadcast_sends_trimmed_nonblank_message_witness :
  let blank := String " " (String "194" (String "160" EmptyString)) in
  let padded := String "194" (String "160" (" Sale today " ++ blank)) in
  (handleSend Sample.broadcastServer true (Sample.draft blank)).2 = []
  /\ sendDisabled (Sample.draft blank) = true
  /\ (handleSend Sample.broadcastServer true (Sample.draft padded)).2
     = [PostBroadcast "Sale today"].
Proof.
  intros blank padded.
  destruct (broadcast_sends_trimmed_nonblank_message
              Sample.broadcastServer true (Sample.draft blank)) as [Hblank _].
  destruct (broadcast_sends_trimmed_nonblank_message
              Sample.broadcastServer true (Sample.draft padded))
    as [_ Hsent].
  destruct (Hblank eq_refl) as [Hnone Hdisabled].
  destruct (Hsent "Sale today") as (_ & _ & _ & Hone & _).
  - vm_compute. constructor.
  - split; [exact Hnone|]. split; [exact Hdisabled | exact Hone].
Defined.

End BroadcastFacts.

(** ** More facts about the string built-ins *)

(** Membership in a list that is written out. *)
Ltac in_list :=
  repeat (first [apply list_elem_of_here | apply list_elem_of_further]).

Module StringFacts.
Import Js JsFacts.

(** [s.startsWith(q)] holds exactly when [s] is [q] followed by
    something. *)
Lemma startsWith_spec s q : startsWith s q = true <-> exists b, s = q ++ b.
Proof.
  revert s. induction q as [|x q IH]; intros s.
  - split; [intros _; exists s; reflexivity | intros _; by destruct s].
  - destruct s as [|y s]; cbn [startsWith].
    + split; [discriminate | intros [b Hb]; discriminate].
    + rewrite andb_true_iff, IH. split.
      * intros [Hxy [b ->]]. apply Ascii.eqb_eq in Hxy as ->.
        exists b. reflexivity.
      * intros [b Hb]. rewrite append_cons in Hb. injection Hb as -> ->.
        split; [apply Ascii.eqb_refl | exists b; reflexivity].
Qed.

(** [s.includes(q)] holds exactly when [q] occurs in [s]. *)
Lemma includes_spec s q :
  includes s q = true <-> exists a b, s = a ++ q ++ b.
Proof.
  induction s as [|c s IH].
  - cbn [includes]. rewrite orb_false_r, startsWith_spec. split.
    + intros [b Hb]. exists EmptyString, b. exact Hb.
    + intros (a & b & Hab). destruct a as [|x a]; [|discriminate].
      exists b. exact Hab.
  - cbn [includes]. rewrite orb_true_iff, startsWith_spec, IH. split.
    + intros [[b Hb] | (a & b & ->)].
      * exists EmptyString, b. exact Hb.
      * exists (String c a), b. reflexivity.
    + intros (a & b & Hab). destruct a as [|x a].
      * left. exists b. exact Hab.
      * right. rewrite append_cons in Hab. injection Hab as -> ->.
        exists a, b. reflexivity.
Qed.

Lemma includes_refl s : includes s s = true.
Proof.
  apply includes_spec. exists EmptyString, EmptyString.
  by rewrite append_nil_r.
Qed.

Lemma includes_trans s q r :
  includes s q = true -> includes q r = true -> includes s r = true.
Proof.
  rewrite !includes_spec. intros (a & b & ->) (a' & b' & ->).
  exists (a ++ a'), (b' ++ b). by rewrite !append_assoc.
Qed.

Lemma includes_app_l a s q : includes s q = true -> includes (a ++ s) q = true.
Proof.
  rewrite !includes_spec. intros (x & y & ->).
  exists (a ++ x), y. by rewrite !append_assoc.
Qed.

Lemma includes_app_r s b q : includes s q = true -> includes (s ++ b) q = true.
Proof.
  rewrite !includes_spec. intros (x & y & ->).
  exists x, (y ++ b). by rewrite !append_assoc.
Qed.

(** On ASCII text lower-casing works letter by letter; the examples use
    these facts of [asciiEngine]. *)
Lemma asciiLowerCase_app a b :
  asciiLowerCase (a ++ b) = asciiLowerCase a ++ asciiLowerCase b.
Proof.
  induction a as [|c a IH]; [done|]. rewrite !append_cons. cbn [asciiLowerCase].
  by rewrite append_cons, IH.
Qed.

Lemma lowerChar_digit n : lowerChar (pretty_N_char n) = pretty_N_char n.
Proof. unfold pretty_N_char. by repeat case_match. Qed.

Lemma asciiLowerCase_pretty_N_go n s :
  asciiLowerCase s = s -> asciiLowerCase (pretty_N_go n s) = pretty_N_go n s.
Proof.
  revert s. induction (N.lt_wf_0 n) as [n _ IH]; intros s Hs.
  destruct (decide (0 < n)%N) as [Hn|Hn].
  - rewrite pretty_N_go_step by done. apply IH.
    + by apply N.div_lt.
    + cbn. by rewrite lowerChar_digit, Hs.
  - assert (n = 0%N) as -> by lia. by rewrite pretty_N_go_0.
Qed.

Lemma asciiLowerCase_pretty_N (n : N) : asciiLowerCase (pretty n) = pretty n.
Proof.
  unfold pretty, pretty_N. case_decide; [done|].
  by apply asciiLowerCase_pretty_N_go.
Qed.

(** [String(n)] holds digits and a sign only, so lower-casing keeps it. *)
Lemma asciiLowerCase_toString (n : Z) : asciiLowerCase (toString n) = toString n.
Proof.
  unfold toString, pretty, pretty_Z. destruct n as [|p|p].
  - done.
  - apply asciiLowerCase_pretty_N.
  - rewrite asciiLowerCase_app. f_equal. apply asciiLowerCase_pretty_N.
Qed.

End StringFacts.
(** ** More about the search boxes *)

Module SearchMoreFacts.
Import Js JsFacts StringFacts SearchFacts.

Lemma list_filter_elem_of {A} (p : A -> bool) (l : list A) (x : A) :
  x ∈ List.filter p l <-> x ∈ l /\ p x = true.
Proof. rewrite !list_elem_of_In. apply filter_In. Qed.

Section Narrower.
Context {engine : Engine}.
Variables q1 q2 : string.
Hypothesis nonblank : isBlank q2 = false.
Hypothesis part : includes (toLowerCase q2) (toLowerCase q1) = true.

Lemma narrow s :
  includes s (toLowerCase q2) = true -> includes s (toLowerCase q1) = true.
Proof. intros Hs. exact (includes_trans _ _ _ Hs part). Qed.

Lemma orders_narrower o : Orders.matches q2 o = true -> Orders.matches q1 o = true.
Proof.
  unfold Orders.matches. rewrite !guard_blank, nonblank.
  destruct (isBlank q1); [done|].
  rewrite !orb_true_iff. intuition auto using narrow.
Qed.

Lemma loyalty_narrower u : Loyalty.matches q2 u = true -> Loyalty.matches q1 u = true.
Proof.
  unfold Loyalty.matches. rewrite !guard_blank, nonblank.
  destruct (isBlank q1); [done|].
  rewrite !orb_true_iff. intuition auto using narrow.
Qed.

Lemma users_narrower u : Users.matches q2 u = true -> Users.matches q1 u = true.
Proof.
  unfold Users.matches. rewrite !guard_blank, nonblank.
  destruct (isBlank q1); [done|].
  rewrite !orb_true_iff. intuition auto using narrow.
Qed.

Lemma bouquets_narrower c b :
  Bouquets.matches c q2 b = true -> Bouquets.matches c q1 b = true.
Proof.
  unfold Bouquets.matches. destruct (_ && _); [done|].
  rewrite !truthy_trim, nonblank.
  destruct (isBlank q1); [done|]. cbn. apply narrow.
Qed.
End Narrower.

(** X1.  In the four searchable lists (orders, loyalty users, users,
    bouquets) a row that a query which is not blank finds is also found
    by every query whose lower-casing is a part of the lower-casing of
    the first: a shorter query of that kind can only bring rows back.
    (Lower-casing looks at the letters around a character, so this is
    said of the lower-cased queries, not of the queries as typed.) *)
Theorem part_of_query_finds_at_least_the_same_rows
    {engine : Engine} (q1 q2 : string) :
  isBlank q2 = false ->
  includes (toLowerCase q2) (toLowerCase q1) = true ->
  (forall o, Orders.matches q2 o = true -> Orders.matches q1 o = true)
  /\ (forall u, Loyalty.matches q2 u = true -> Loyalty.matches q1 u = true)
  /\ (forall u, Users.matches q2 u = true -> Users.matches q1 u = true)
  /\ (forall c b, Bouquets.matches c q2 b = true -> Bouquets.matches c q1 b = true).
Proof.
  intros nonblank part. split; [|split; [|split]].
  - intros o. by apply orders_narrower.
  - intros u. by apply loyalty_narrower.
  - intros u. by apply users_narrower.
  - intros c b. by apply bouquets_narrower.
Qed.

Lemma part_of_query_finds_at_least_the_same_rows_witness :
  Orders.matches "etro" Sample.order7 = true
  /\ Bouquets.matches "all" "rose" Sample.roses = true.
Proof.
  destruct (part_of_query_finds_at_least_the_same_rows
              (engine := asciiEngine) "etro" "Petrova")
    as (Ho & _ & _ & _); [reflexivity | vm_compute; reflexivity|].
  destruct (part_of_query_finds_at_least_the_same_rows
              (engine := asciiEngine) "rose" "red roses")
    as (_ & _ & _ & Hb); [reflexivity | vm_compute; reflexivity|].
  split.
  - apply Ho. vm_compute. reflexivity.
  - apply Hb. vm_compute. reflexivity.
Defined.

(** X2.  On the orders page a row is found by every query whose
    lower-casing is a part of the row's number as the table shows it
    ([#] and the id) or of the lower-cased customer name, and by the
    customer name exactly as the table shows it.  It is found by its
    number, with or without the [#], as soon as lower-casing leaves
    that text alone, which it does to digits and signs. *)
Theorem order_found_by_number_or_shown_name
    {engine : Engine} (o : Order.t) (q : string) :
  includes ("#" ++ toString (Order.id o)) (toLowerCase q) = true
  \/ includes (toLowerCase (Orders.customerName o)) (toLowerCase q) = true ->
  Orders.matches q o = true
  /\ Orders.matches (Orders.customerName o) o = true
  /\ (toLowerCase (toString (Order.id o)) = toString (Order.id o) ->
      Orders.matches (toString (Order.id o)) o = true)
  /\ (toLowerCase ("#" ++ toString (Order.id o)) = "#" ++ toString (Order.id o) ->
      Orders.matches ("#" ++ toString (Order.id o)) o = true).
Proof.
  intros Hq. unfold Orders.matches. rewrite !guard_blank.
  split; [|split; [|split]].
  - destruct (isBlank q); [done|]. destruct Hq as [-> | ->]; by rewrite ?orb_true_r.
  - destruct (isBlank _); [done|]. by rewrite includes_refl, ?orb_true_r.
  - intros ->. destruct (isBlank _); [done|].
    by rewrite (includes_refl (toString _)), ?orb_true_r.
  - intros ->. destruct (isBlank _); [done|]. by rewrite includes_refl.
Qed.

Lemma order_found_by_number_or_shown_name_witness :
  Orders.matches "#4" Sample.order42 = true
  /\ Orders.matches "Olga" Sample.order42 = true
  /\ Orders.matches "42" Sample.order42 = true
  /\ Orders.matches "#42" Sample.order42 = true.
Proof.
  destruct (order_found_by_number_or_shown_name
              (engine := asciiEngine) Sample.order42 "#4")
    as (Hq & Hname & Hid & Hnumber).
  - left. vm_compute. reflexivity.
  - split; [exact Hq|]. split; [exact Hname|].
    split; [apply Hid | apply Hnumber]; reflexivity.
Defined.

(** The name cell of a loyalty or users row occurs in the name the filter
    searches, also after lower-casing, when lower-casing the joined
    name is lower-casing the two names on either side of the blank. *)
Lemma lower_fullName_includes_shown {engine : Engine} first last :
  toLowerCase (orElse first EmptyString ++ " " ++ orElse last EmptyString)
  = toLowerCase (orElse first EmptyString) ++ " "
    ++ toLowerCase (orElse last EmptyString) ->
  includes
    (toLowerCase (orElse first EmptyString ++ " " ++ orElse last EmptyString))
    (toLowerCase (join " " (filterBoolean [first; last]))) = true.
Proof.
  destruct first as [[|c f]|], last as [[|d l]|];
    cbn [filterBoolean truthy join orElse]; intros words;
    first [ apply includes_refl
          | rewrite words; apply includes_app_r, includes_refl
          | rewrite words; apply includes_app_l, includes_app_l, includes_refl ].
Qed.

(** X3.  On the loyalty and users pages the filter searches the two
    names joined by a blank, the name cell shows them without the blank
    of a missing one.  When lower-casing the joined name of a row is
    lower-casing its two names on either side of the blank (as it is:
    no rule of lower-casing looks across a space), the row is found by
    its name exactly as the cell shows it and by every query whose
    lower-casing is a part of that lower-cased name; the placeholder of
    a nameless row is not a name. *)
Theorem user_found_by_shown_name
    {engine : Engine} (lu : LoyaltyUser.t) (uu : UserItem.t) (q : string) :
  toLowerCase (Loyalty.fullName lu)
  = toLowerCase (orElse (LoyaltyUser.firstName lu) EmptyString) ++ " "
    ++ toLowerCase (orElse (LoyaltyUser.lastName lu) EmptyString) ->
  toLowerCase (Users.fullName uu)
  = toLowerCase (orElse (UserItem.firstName uu) EmptyString) ++ " "
    ++ toLowerCase (orElse (UserItem.lastName uu) EmptyString) ->
  includes (toLowerCase (Loyalty.shownName lu)) (toLowerCase q) = true ->
  includes (toLowerCase (Users.shownName uu)) (toLowerCase q) = true ->
  Loyalty.matches q lu = true
  /\ Users.matches q uu = true
  /\ Loyalty.matches (Loyalty.shownName lu) lu = true
  /\ Users.matches (Users.shownName uu) uu = true
  /\ (Loyalty.nameCell lu = Loyalty.shownName lu \/ Loyalty.nameCell lu = "---")
  /\ (Users.nameCell uu = Users.shownName uu \/ Users.nameCell uu = "---").
Proof.
  intros Hlwords Huwords Hl Hu.
  assert (Hlname : forall s, includes (toLowerCase (Loyalty.shownName lu)) s = true ->
            includes (toLowerCase (Loyalty.fullName lu)) s = true).
  { intros s. by apply includes_trans, lower_fullName_includes_shown. }
  assert (Huname : forall s, includes (toLowerCase (Users.shownName uu)) s = true ->
            includes (toLowerCase (Users.fullName uu)) s = true).
  { intros s. by apply includes_trans, lower_fullName_includes_shown. }
  unfold Loyalty.matches, Users.matches. rewrite !guard_blank.
  split; [|split; [|split; [|split; [|split]]]].
  - destruct (isBlank q); [done|]. by rewrite (Hlname _ Hl).
  - destruct (isBlank q); [done|]. by rewrite (Huname _ Hu).
  - destruct (isBlank _); [done|]. by rewrite (Hlname _ (includes_refl _)).
  - destruct (isBlank _); [done|]. by rewrite (Huname _ (includes_refl _)).
  - unfold Loyalty.nameCell. destruct (Loyalty.shownName lu); cbn; auto.
  - unfold Users.nameCell. destruct (Users.shownName uu); cbn; auto.
Qed.

Lemma user_found_by_shown_name_witness :
  Loyalty.matches "VA" Sample.ivan = true
  /\ Users.matches "VA" Sample.eva = true
  /\ Loyalty.matches "Ivan" Sample.ivan = true.
Proof.
  destruct (user_found_by_shown_name
              (engine := asciiEngine) Sample.ivan Sample.eva "VA")
    as (Hl & Hu & Hshown & _).
  - reflexivity.
  - reflexivity.
  - vm_compute. reflexivity.
  - vm_compute. reflexivity.
  - split; [exact Hl | split; [exact Hu | exact Hshown]].
Defined.

(** X4.  The search box of the bouquets page ignores the case of the
    letters both in the query and in the name of a bouquet: two queries
    that lower-case to the same string (and are blank together), and two
    bouquets of one category whose names lower-case to the same string,
    are treated alike. *)
Theorem bouquet_search_ignores_case
    {engine : Engine} (category q q' : string) (b b' : Bouquet.t) :
  toLowerCase q = toLowerCase q' ->
  isBlank q = isBlank q' ->
  toLowerCase (Bouquet.name b) = toLowerCase (Bouquet.name b') ->
  Bouquet.category b = Bouquet.category b' ->
  Bouquets.matches category q b = Bouquets.matches category q' b'.
Proof.
  intros Hq Hblank Hname Hcat. unfold Bouquets.matches.
  by rewrite !truthy_trim, Hblank, Hq, Hname, Hcat.
Qed.

Lemma bouquet_search_ignores_case_witness :
  Bouquets.matches "roses" "RED" Sample.roses
  = Bouquets.matches "roses" "red" Sample.roses.
Proof.
  apply (bouquet_search_ignores_case (engine := asciiEngine)
           "roses" "RED" "red" Sample.roses Sample.roses);
    reflexivity.
Defined.

End SearchMoreFacts.

(** ** More about the orders page *)

Module OrdersMoreFacts.
Import Http Orders OrdersFacts.

(** The orders of a list that have a given status. *)
Lemma countStatus_fold (l : list Order.t) (m : gmap string nat) (s : string) :
  default 0%nat (fold_left countStatus l m !! s)
  = (default 0%nat (m !! s)
     + length (List.filter (fun o => String.eqb (Order.status o) s) l))%nat.
Proof.
  revert m. induction l as [|o l IH]; intros m; cbn [fold_left List.filter].
  - cbn [length]. lia.
  - rewrite IH. unfold countStatus.
    destruct (String.eqb_spec (Order.status o) s) as [->|Hne].
    + rewrite lookup_insert_eq. simpl. lia.
    + by rewrite lookup_insert_ne.
Qed.

Lemma count_split (l : list Order.t) :
  Forall (fun o => Order.status o ∈ workflow) l ->
  length l
  = sum_list ((fun s => length (List.filter
                 (fun o => String.eqb (Order.status o) s) l)) <$> workflow).
Proof.
  induction 1 as [|o l Ho _ IH]; [done|].
  cbn [length]. rewrite IH. clear IH.
  apply workflow_cases in Ho.
  destruct Ho as [Ho|[Ho|[Ho|[Ho|[Ho|Ho]]]]];
    cbn [workflow fmap list_fmap sum_list sum_list_with List.filter];
    rewrite Ho; cbn; lia.
Qed.

(** X6.  The number in the badge of a status tab is the number of loaded
    orders with that status, the badge of [all] is the number of loaded
    orders, and when every loaded order has one of the six statuses the
    badges of the six status tabs add up to the badge of [all]. *)
Theorem tab_badges_count_loaded_orders (st : State) (s : string) :
  tabCount st "all" = length (orders st)
  /\ (s <> "all" ->
      tabCount st s
      = length (List.filter (fun o => String.eqb (Order.status o) s) (orders st)))
  /\ (Forall (fun o => Order.status o ∈ workflow) (orders st) ->
      sum_list (tabCount st <$> workflow) = tabCount st "all").
Proof.
  assert (Hcount : forall k, k <> "all" ->
            tabCount st k
            = length (List.filter (fun o => String.eqb (Order.status o) k) (orders st))).
  { intros k Hk. unfold tabCount, statusCounts.
    destruct (String.eqb_spec k "all") as [|_]; [done|].
    by rewrite countStatus_fold, lookup_empty. }
  split; [done|]. split; [by apply Hcount|].
  intros Hall. change (tabCount st "all") with (length (orders st)).
  rewrite (count_split _ Hall). unfold workflow. cbn [fmap list_fmap].
  by rewrite !Hcount.
Qed.

Lemma tab_badges_count_loaded_orders_witness :
  let st := setOrders [Sample.order7; Sample.order42; Sample.order7]
              Sample.ordersLoaded in
  tabCount st "new" = 2%nat
  /\ sum_list (tabCount st <$> workflow) = 3%nat.
Proof.
  intros st.
  destruct (tab_badges_count_loaded_orders st "new") as (Hall & Hnew & Hsum).
  split.
  - rewrite Hnew; [reflexivity | discriminate].
  - rewrite Hsum; [exact Hall|].
    repeat constructor; vm_compute;
      in_list.
Defined.

(** The table, read as a relation. *)
Lemma offered_cases a b :
  b ∈ offered a ->
  (a = "new" /\ (b = "confirmed" \/ b = "canceled"))
  \/ (a = "confirmed" /\ (b = "preparing" \/ b = "canceled"))
  \/ (a = "preparing" /\ (b = "delivering" \/ b = "canceled"))
  \/ (a = "delivering" /\ (b = "completed" \/ b = "canceled")).
Proof.
  destruct (decide (a ∈ workflow)) as [Ha|Ha].
  - apply workflow_cases in Ha.
    destruct Ha as [->|[->|[->|[->|[->| ->]]]]].
    + change (offered "new") with ["confirmed"; "canceled"].
      rewrite !elem_of_cons, elem_of_nil. intuition.
    + change (offered "confirmed") with ["preparing"; "canceled"].
      rewrite !elem_of_cons, elem_of_nil. intuition.
    + change (offered "preparing") with ["delivering"; "canceled"].
      rewrite !elem_of_cons, elem_of_nil. intuition.
    + change (offered "delivering") with ["completed"; "canceled"].
      rewrite !elem_of_cons, elem_of_nil. intuition.
    + change (offered "completed") with (@nil string). by rewrite elem_of_nil.
    + change (offered "canceled") with (@nil string). by rewrite elem_of_nil.
  - intros Hb. destruct (offered_lookup _ _ Hb) as (l & Hl & _).
    by rewrite (nextStatuses_outside a Ha) in Hl.
Qed.

Lemma offered_rank a b : b ∈ offered a -> (rank a < rank b)%nat /\ b ∈ workflow.
Proof.
  intros H. apply offered_cases in H.
  destruct H as [[-> [->| ->]]|[[-> [->| ->]]|[[-> [->| ->]]|[-> [->| ->]]]]];
    (split; [vm_compute; lia |
             vm_compute;
             in_list]).
Qed.

Lemma rank_le s : (rank s <= 4)%nat.
Proof. unfold rank. repeat case_match; lia. Qed.

Lemma isChain_ranked a tl :
  isChain (a :: tl) = true ->
  (rank a + length tl <= 4)%nat
  /\ Forall (fun x => (rank a < rank x)%nat) tl
  /\ Forall (fun x => x ∈ workflow) tl
  /\ NoDup (a :: tl).
Proof.
  revert a. induction tl as [|b tl IH]; intros a Hchain.
  - pose proof (rank_le a). repeat split; [cbn; lia | done | done |].
    apply NoDup_singleton.
  - cbn [isChain] in Hchain. apply andb_true_iff in Hchain as [Hab Htl].
    apply bool_decide_eq_true, offered_rank in Hab as [Hlt Hb].
    destruct (IH b Htl) as (Hlen & Hranks & Hwf & Hnodup).
    assert (Hall : Forall (fun x => (rank a < rank x)%nat) (b :: tl)).
    { constructor; [done|]. eapply Forall_impl; [exact Hranks|].
      cbn. intros x Hx. lia. }
    split; [cbn [length]; lia|]. split; [done|]. split; [by constructor|].
    apply NoDup_cons. split; [|done].
    intros Hin. rewrite Forall_forall in Hall. specialize (Hall a Hin). lia.
Qed.

(** X7.  Following the transitions the page offers, an order never comes
    back to a status it has had, and it goes through at most five
    statuses (four transitions); every status after the first is one of
    the six of the workflow. *)
Theorem offered_transitions_never_repeat_a_status (l : list string) :
  isChain l = true ->
  NoDup l /\ (length l <= 5)%nat /\ Forall (fun s => s ∈ workflow) (tail l).
Proof.
  destruct l as [|a tl]; intros Hchain.
  - split; [apply NoDup_nil_2|]. split; [cbn; lia | done].
  - destruct (isChain_ranked a tl Hchain) as (Hlen & _ & Hwf & Hnodup).
    split; [done|]. split; [cbn [length]; lia | done].
Qed.

Lemma offered_transitions_never_repeat_a_status_witness :
  NoDup ["new"; "confirmed"; "preparing"; "delivering"; "completed"]
  /\ isChain ["new"; "confirmed"; "preparing"; "delivering"; "completed"] = true
  /\ isChain ["completed"; "new"] = false.
Proof.
  split; [|split; vm_compute; reflexivity].
  apply (offered_transitions_never_repeat_a_status
           ["new"; "confirmed"; "preparing"; "delivering"; "completed"]).
  vm_compute. reflexivity.
Defined.

(** X8.  Every status the page offers for an order is one of the six
    statuses, differs from the order's status and has a label to show in
    the control; the status it is offered for is one of the four
    non-terminal ones, and for each of those [canceled] is offered too. *)
Theorem offered_status_is_labelled_and_cancel_is_offered (s t : string) :
  t ∈ offered s ->
  t ∈ workflow /\ t <> s
  /\ Js.truthy (optionLabel t) = true
  /\ badgeLabel t = optionLabel t
  /\ s ∈ ["new"; "confirmed"; "preparing"; "delivering"]
  /\ "canceled" ∈ offered s.
Proof.
  intros H. apply offered_cases in H.
  destruct H as [[-> [->| ->]]|[[-> [->| ->]]|[[-> [->| ->]]|[-> [->| ->]]]]];
    vm_compute;
    (split; [in_list|]);
    (split; [discriminate|]); (split; [reflexivity|]); (split; [reflexivity|]);
    split; in_list.
Qed.

Lemma offered_status_is_labelled_and_cancel_is_offered_witness :
  optionLabel "preparing" = "Готовится" /\ "canceled" ∈ offered "confirmed".
Proof.
  destruct (offered_status_is_labelled_and_cancel_is_offered "confirmed" "preparing")
    as (_ & _ & _ & _ & _ & Hcancel).
  - vm_compute. apply list_elem_of_here.
  - split; [vm_compute; reflexivity | exact Hcancel].
Defined.

(** X9.  Whatever the server answers, a status change ends with no row
    marked as updating, leaves the tab and the search text alone, sends
    the status update first and after it at most two requests, both of
    them reads; when the update is rejected the table does not show the
    spinner more than before, and when it is accepted the spinner is
    off. *)
Theorem status_change_always_settles
    (srv : Server) (orderId : Z) (newStatus : string) (st : State) :
  let st' := (handleStatusChange srv orderId newStatus st).1 in
  let sent := (handleStatusChange srv orderId newStatus st).2 in
  updatingId st' = None
  /\ activeTab st' = activeTab st
  /\ search st' = search st
  /\ (exists reads, sent = PutOrderStatus orderId newStatus :: reads
                    /\ (length reads <= 2)%nat
                    /\ forallb isGet reads = true)
  /\ loading st' = match putOrderStatus srv orderId newStatus with
                   | Ok _ => false
                   | Err _ => loading st
                   end.
Proof.
  unfold handleStatusChange, fetchOrders, isSelected.
  destruct (putOrderStatus srv orderId newStatus) as [[]|err]; cbn.
  - destruct (getOrders srv _), (selectedOrder st) as [sel|]; cbn;
      try destruct (Order.id sel =? orderId); cbn;
      try destruct (getOrder srv orderId); cbn;
      (repeat split; try done; eexists; split; [reflexivity|]; cbn; split; [lia|done]).
  - repeat split; try done. exists []. cbn. split; [done|]. split; [lia|done].
Qed.

Lemma fromServer_mono servers servers' st :
  servers ⊆ servers' -> fromServer servers st -> fromServer servers' st.
Proof.
  intros Hsub [Hnil | (srv & params & Hin & Hget)]; [by left|].
  right. exists srv, params. split; [by apply Hsub | done].
Qed.

Lemma fetchOrders_atRest srv status st :
  updatingId st = None -> status ∈ statuses -> activeTab st = status ->
  atRest (fetchOrders srv status st).1.
Proof.
  intros Hup Hin Htab. unfold atRest, fetchOrders.
  destruct (getOrders srv _); cbn; by rewrite Hup, Htab.
Qed.

Lemma fetchOrders_fromServer srv status st servers :
  srv ∈ servers -> fromServer servers st ->
  fromServer servers (fetchOrders srv status st).1.
Proof.
  intros Hin Hfrom. unfold fetchOrders.
  destruct (getOrders srv _) as [d|e] eqn:Hget; cbn.
  - right. eauto.
  - exact Hfrom.
Qed.

Lemma handleStatusChange_orders srv orderId newStatus st :
  orders (handleStatusChange srv orderId newStatus st).1 = orders st
  \/ exists params,
       getOrders srv params = Ok (orders (handleStatusChange srv orderId newStatus st).1).
Proof.
  unfold handleStatusChange, fetchOrders, isSelected.
  destruct (putOrderStatus srv orderId newStatus) as [[]|err]; cbn; [|by left].
  destruct (getOrders srv _) as [d|e] eqn:Hget, (selectedOrder st) as [sel|]; cbn;
    try destruct (Order.id sel =? orderId); cbn;
    try destruct (getOrder srv orderId); cbn; eauto.
Qed.

Lemma handleStatusChange_atRest srv orderId newStatus st :
  atRest st -> atRest (handleStatusChange srv orderId newStatus st).1.
Proof.
  intros (Hload & Hup & Htab). unfold atRest, handleStatusChange, fetchOrders, isSelected.
  destruct (putOrderStatus srv orderId newStatus) as [[]|err]; cbn; [|done].
  destruct (getOrders srv _), (selectedOrder st) as [sel|]; cbn;
    try destruct (Order.id sel =? orderId); cbn;
    try destruct (getOrder srv orderId); cbn; done.
Qed.

Lemma handle_step {engine : Js.Engine} srv st ev servers :
  srv ∈ servers -> enabled st ev = true -> atRest st -> fromServer servers st ->
  atRest (handle srv st ev).1 /\ fromServer servers (handle srv st ev).1.
Proof.
  intros Hsrv Hen (Hload & Hup & Htab) Hfrom.
  destruct ev as [s|text|row|row value|s|]; cbn [handle].
  - cbn in Hen. apply bool_decide_eq_true in Hen.
    destruct (String.eqb s (activeTab st)); [done|]. split.
    + by apply fetchOrders_atRest.
    + apply fetchOrders_fromServer; [done|]. exact Hfrom.
  - done.
  - destruct (filtered st !! row); done.
  - destruct (filtered st !! row) as [o|]; [|done].
    destruct (Js.truthy value); [|done].
    split.
    + by apply handleStatusChange_atRest.
    + destruct (handleStatusChange_orders srv (Order.id o) value st)
        as [Hsame | (params & Hget)].
      * destruct Hfrom as [Hnil | Hfrom]; [left; congruence|].
        right. destruct Hfrom as (srv' & params & Hin & Hget).
        exists srv', params. by rewrite Hsame.
      * right. eauto.
  - destruct (selectedOrder st) as [sel|]; [|done].
    split.
    + by apply handleStatusChange_atRest.
    + destruct (handleStatusChange_orders srv (Order.id sel) s st)
        as [Hsame | (params & Hget)].
      * destruct Hfrom as [Hnil | Hfrom]; [left; congruence|].
        right. destruct Hfrom as (srv' & params & Hin & Hget).
        exists srv', params. by rewrite Hsame.
      * right. eauto.
  - done.
Qed.

Lemma run_keeps {engine : Js.Engine} st session servers :
  Forall (fun step => step.1 ∈ servers) session ->
  atRest st -> fromServer servers st ->
  atRest (run st session) /\ fromServer servers (run st session).
Proof.
  revert st. induction session as [|[srv ev] rest IH]; intros st Hsrv Hrest Hfrom;
    [done|].
  apply Forall_cons in Hsrv as [Hin Hsrv]. cbn [run].
  destruct (enabled st ev) eqn:Hen; [|by apply IH].
  destruct (handle_step srv st ev servers Hin Hen Hrest Hfrom). by apply IH.
Qed.

(** X10.  After the page has mounted, and after every further event of a
    session, whatever the servers answer: the table is not showing the
    spinner, no row is marked as updating, the active tab is one of the
    seven tabs, and the list on the page is empty or is, unchanged, the
    answer of a server to a list request. *)
Theorem orders_page_is_at_rest_with_a_server_list {engine : Js.Engine}
    (srv0 : Server) (session : list (Server * Event)) :
  let st := run (onMount srv0 initial).1 session in
  loading st = false
  /\ updatingId st = None
  /\ activeTab st ∈ statuses
  /\ (orders st = []
      \/ exists srv params,
           srv ∈ srv0 :: session.*1 /\ getOrders srv params = Ok (orders st)).
Proof.
  intros st.
  destruct (run_keeps (onMount srv0 initial).1 session (srv0 :: session.*1))
    as ((Hload & Hup & Htab) & Hfrom).
  - apply Forall_forall. intros [srv ev] Hin. apply list_elem_of_further.
    apply list_elem_of_fmap. by exists (srv, ev).
  - apply fetchOrders_atRest; [done | vm_compute; in_list | done].
  - apply fetchOrders_fromServer; [apply list_elem_of_here | by left].
  - done.
Qed.

End OrdersMoreFacts.

(** ** More about the loyalty page *)

Module LoyaltyMoreFacts.
Import Http Loyalty Js JsFacts.

(** X11.  The amount is typed as a decimal integer, with or without a
    sign, and it, the balance in the modal and their sum are safe
    integers.  Then an adjustment that the server accepts, followed by
    an answered history request, adds the amount to the balance in the
    modal, whatever its sign (a debit can make the balance negative:
    nothing on the page keeps it at zero), shows the history the server
    answered, and closes and clears the form; the list of users becomes
    the server's when that request is answered. *)
Theorem accepted_adjustment_adds_amount_and_resets_form
    (srv : Server) (st : State) (sel : LoyaltyUser.t) (amount : Z)
    (ledger : list HistoryEntry.t) :
  selectedUser st = Some sel ->
  adjustAmount st <> EmptyString ->
  Number (adjustAmount st) = Some amount ->
  isSafeInteger amount = true ->
  isSafeInteger (LoyaltyUser.bonusPoints sel) = true ->
  isSafeInteger (LoyaltyUser.bonusPoints sel + amount) = true ->
  postAdjust srv (LoyaltyUser.id sel) amount
    (descriptionField (adjustDescription st)) = Ok tt ->
  getHistory srv (LoyaltyUser.id sel) = Ok ledger ->
  exists st',
    handleAdjust srv st
      = Some (st', [PostAdjust (LoyaltyUser.id sel) amount
                      (descriptionField (adjustDescription st));
                    GetLoyalty; GetHistory (LoyaltyUser.id sel)])
    /\ displayedBalance st' = Some (LoyaltyUser.bonusPoints sel + amount)
    /\ LoyaltyUser.id <$> selectedUser st' = Some (LoyaltyUser.id sel)
    /\ history st' = ledger
    /\ showAdjust st' = false
    /\ adjustAmount st' = EmptyString
    /\ adjustDescription st' = EmptyString
    /\ adjusting st' = false
    /\ users st' = match getLoyalty srv with
                   | Ok l => l
                   | Err _ => users st
                   end.
Proof.
  intros Hsel Hne Hnum _ _ _ Hpost Hhist.
  assert (Htruthy : truthy (adjustAmount st) = true) by by destruct (adjustAmount st).
  unfold handleAdjust. rewrite Hsel, Htruthy, Hnum. cbn.
  rewrite Hpost. unfold fetchUsers.
  destruct (getLoyalty srv); cbn; rewrite Hhist; cbn; rewrite Hsel;
    (eexists; split; [reflexivity|]); by cbn.
Qed.

Lemma accepted_adjustment_adds_amount_and_resets_form_witness :
  exists st',
    handleAdjust Sample.loyaltyServer Sample.loyaltyDebit
      = Some (st', [PostAdjust 3 (-80) (Some "refund"); GetLoyalty; GetHistory 3])
    /\ displayedBalance st' = Some (-30)
    /\ showAdjust st' = false.
Proof.
  destruct (accepted_adjustment_adds_amount_and_resets_form
              Sample.loyaltyServer Sample.loyaltyDebit Sample.ivan (-80)
              [Sample.credit; Sample.welcome])
    as (st' & Hrun & Hbal & _ & _ & Hform & _);
    [reflexivity | discriminate | reflexivity | reflexivity | reflexivity
    | reflexivity | reflexivity | reflexivity |].
  exists st'. split; [exact Hrun | split; [exact Hbal | exact Hform]].
Defined.



Lemma parseDigits_digits s acc n :
  parseDigits s acc = Some n -> forallb isDigit (list_ascii_of_string s) = true.
Proof.
  revert acc. induction s as [|c s IH]; intros acc; [done|].
  cbn [parseDigits list_ascii_of_string forallb]. unfold isDigit at 1.
  destruct (_ && _); [|done]. intros H. by rewrite (IH _ H).
Qed.

Lemma isDigit_not_space c : isDigit c = true -> isSpace c = false.
Proof.
  unfold isDigit, isSpace. intros H. apply andb_true_iff in H as [H1 H2].
  apply Nat.leb_le in H1, H2.
  destruct (Nat.eqb_spec (nat_of_ascii c) 32); [lia|].
  destruct (Nat.leb_spec (nat_of_ascii c) 13); [|by rewrite andb_false_r].
  lia.
Qed.

Lemma isDigit_ascii c : isDigit c = true -> (nat_of_ascii c < 128)%nat.
Proof.
  unfold isDigit. intros H. apply andb_true_iff in H as [_ H].
  apply Nat.leb_le in H. lia.
Qed.

(** No white-space character of more than one byte starts with an ASCII
    byte. *)
Lemma afterSpace_ascii c r :
  (nat_of_ascii c < 128)%nat -> isSpace c = false ->
  afterSpace (String c r) = None.
Proof.
  intros Hc Hs. cbn [afterSpace]. rewrite Hs.
  destruct r as [|c2 [|c3 r]]; [done| |].
  - unfold isSpace2. destruct (Nat.eqb_spec (nat_of_ascii c) 194); [lia|done].
  - unfold isSpace2, isSpace3.
    destruct (Nat.eqb_spec (nat_of_ascii c) 194); [lia|].
    destruct (Nat.eqb_spec (nat_of_ascii c) 225); [lia|].
    destruct (Nat.eqb_spec (nat_of_ascii c) 226); [lia|].
    destruct (Nat.eqb_spec (nat_of_ascii c) 227); [lia|].
    destruct (Nat.eqb_spec (nat_of_ascii c) 239); [lia|]. done.
Qed.

Lemma afterSpace_digit c r : isDigit c = true -> afterSpace (String c r) = None.
Proof.
  intros Hc. apply afterSpace_ascii;
    [by apply isDigit_ascii | by apply isDigit_not_space].
Qed.

Lemma trimEnd_digits s :
  forallb isDigit (list_ascii_of_string s) = true -> trimEnd s = s.
Proof.
  induction s as [|c s IH]; [done|].
  cbn [list_ascii_of_string forallb]. intros H.
  apply andb_true_iff in H as [Hc Hs]. cbn [trimEnd].
  rewrite isBlank_afterSpace, (afterSpace_digit c s Hc). cbn.
  by rewrite (IH Hs).
Qed.

Lemma trim_digits s :
  forallb isDigit (list_ascii_of_string s) = true -> trim s = s.
Proof.
  intros H. unfold trim. destruct s as [|c s]; [done|].
  pose proof H as H'. cbn [list_ascii_of_string forallb] in H'.
  apply andb_true_iff in H' as [Hc _].
  rewrite trimStart_afterSpace, (afterSpace_digit c s Hc).
  by apply trimEnd_digits.
Qed.

Lemma trim_minus_digits s :
  forallb isDigit (list_ascii_of_string s) = true ->
  trim (String "-" s) = String "-" s.
Proof.
  intros H. unfold trim.
  assert (Hminus : afterSpace (String "-" s) = None).
  { apply afterSpace_ascii; [|reflexivity].
    change (nat_of_ascii "-") with 45%nat. lia. }
  rewrite trimStart_afterSpace, Hminus. cbn [trimEnd].
  rewrite isBlank_afterSpace, Hminus. cbn.
  by rewrite (trimEnd_digits s H).
Qed.

Lemma digit_not_sign c : isDigit c = true -> c <> "-"%char /\ c <> "+"%char.
Proof. split; intros ->; done. Qed.

(** X13.  The two sign buttons of the adjustment form.  The minus button
    puts one minus sign in front and pressing it again changes nothing;
    the plus button removes a leading minus sign, so plus after minus
    gives back an amount that had no sign.  On an amount written in
    digits, minus makes [Number] read the negated amount and plus after
    minus the amount itself. *)
Theorem sign_buttons_negate_and_restore (s : string) (n : Z) :
  s <> EmptyString ->
  parseDigits s 0 = Some n ->
  Number s = Some n
  /\ Number (minusClick s) = Some (- n)
  /\ plusClick (minusClick s) = s
  /\ minusClick (minusClick s) = minusClick s
  /\ plusClick s = s
  /\ minusClick (plusClick (minusClick s)) = minusClick s.
Proof.
  intros Hne Hparse.
  pose proof (parseDigits_digits s 0 n Hparse) as Hdigits.
  destruct s as [|c r]; [done|].
  pose proof Hdigits as Hc. cbn [list_ascii_of_string forallb] in Hc.
  apply andb_true_iff in Hc as [Hc _].
  destruct (digit_not_sign c Hc) as [Hminus Hplus].
  assert (Hmc : minusClick (String c r) = String "-" (String c r)).
  { unfold minusClick. destruct (Ascii.eqb_spec c "-"); [done|].
    destruct c as [[] [] [] [] [] [] [] []]; try done. }
  assert (Hpc : plusClick (String c r) = String c r).
  { unfold plusClick. destruct c as [[] [] [] [] [] [] [] []]; try done. }
  split; [|split; [|split; [|split; [|split]]]].
  - unfold Number. rewrite (trim_digits _ Hdigits).
    destruct c as [[] [] [] [] [] [] [] []]; try done.
  - rewrite Hmc. unfold Number. rewrite (trim_minus_digits _ Hdigits).
    by rewrite Hparse.
  - by rewrite Hmc.
  - by rewrite Hmc.
  - exact Hpc.
  - by rewrite Hmc.
Qed.

Lemma sign_buttons_negate_and_restore_witness :
  Number (minusClick "250") = Some (-250)
  /\ plusClick (minusClick "250") = "250".
Proof.
  destruct (sign_buttons_negate_and_restore "250" 250)
    as (_ & Hminus & Hplus & _); [discriminate | reflexivity |].
  split; [exact Hminus | exact Hplus].
Defined.

(** X14.  Opening a user puts that user in the modal with an empty
    history, the loading mark and a closed, empty adjustment form, and
    sends one history request.  The answer, when it arrives, becomes the
    history shown (a failure leaves the history and sets the error)
    without a look at the user the modal shows by then: when nothing
    happened in between that is the history of the user opened, and when
    another user was opened in between, the modal shows that user with
    the history answered for the first.  Closing the modal leaves no
    user, no history and no open form.  None of these touches the list
    or the search. *)
Theorem opened_user_modal_shows_the_answer_that_arrives
    {engine : Engine} (srv : Server) (user other : LoyaltyUser.t) (st : State)
    (h : list HistoryEntry.t) :
  let opened := (beginOpen user st).1 in
  let st' := (openUserHistory srv user st).1 in
  let late := endOpen (Ok h) (beginOpen other opened).1 in
  (selectedUser opened = Some user
   /\ history opened = []
   /\ historyLoading opened = true
   /\ showAdjust opened = false
   /\ adjustAmount opened = EmptyString
   /\ adjustDescription opened = EmptyString
   /\ (beginOpen user st).2 = [GetHistory (LoyaltyUser.id user)]
   /\ filtered opened = filtered st)
  /\ (st' = endOpen (getHistory srv (LoyaltyUser.id user)) opened
      /\ selectedUser st' = Some user
      /\ history st' = match getHistory srv (LoyaltyUser.id user) with
                       | Ok l => l
                       | Err _ => []
                       end
      /\ historyLoading st' = false
      /\ (openUserHistory srv user st).2 = [GetHistory (LoyaltyUser.id user)]
      /\ filtered st' = filtered st)
  /\ (selectedUser late = Some other
      /\ history late = h
      /\ historyLoading late = false)
  /\ (selectedUser (closeModal st') = None
      /\ history (closeModal st') = []
      /\ showAdjust (closeModal st') = false
      /\ filtered (closeModal st') = filtered st).
Proof.
  unfold openUserHistory.
  destruct (getHistory srv (LoyaltyUser.id user)); by cbn.
Qed.

End LoyaltyMoreFacts.

(** ** More about the catalog pages *)

Module CatalogMoreFacts.
Import Http CatalogFacts.

Lemma Bouquet_set_id f v b : Bouquet.id (Bouquet.set f v b) = Bouquet.id b.
Proof. by destruct f. Qed.

Lemma Bouquet_set_set f v w b :
  Bouquet.set f v (Bouquet.set f w b) = Bouquet.set f v b.
Proof. by destruct f. Qed.

Lemma Bouquet_set_comm f g v w b :
  f <> g ->
  Bouquet.set f v (Bouquet.set g w b) = Bouquet.set g w (Bouquet.set f v b).
Proof. by destruct f, g. Qed.

Lemma Bouquet_set_same f b : Bouquet.set f (Bouquet.get f b) b = b.
Proof. by destruct b, f. Qed.

(** The patch that an accepted toggle applies to the list. *)
Lemma handleToggle_accepted srv id f v st :
  Bouquets.patchToggle srv id f v = Ok tt ->
  Bouquets.bouquets (Bouquets.handleToggle srv id f v st).1
  = map (fun b => if Bouquet.id b =? id then Bouquet.set f v b else b)
        (Bouquets.bouquets st).
Proof. intros H. unfold Bouquets.handleToggle. by rewrite H. Qed.

(** X15.  Two accepted toggles of the bouquets page that differ in the
    bouquet or in the flag can be applied in either order with the same
    list as the result, and an accepted toggle applied a second time
    changes nothing more. *)
Theorem toggles_commute_and_repeat_harmlessly
    (srv : Bouquets.Server) (st : Bouquets.State)
    (id1 id2 : Z) (f1 f2 : Bouquet.Field) (v1 v2 : bool) :
  Bouquets.patchToggle srv id1 f1 v1 = Ok tt ->
  Bouquets.patchToggle srv id2 f2 v2 = Ok tt ->
  id1 <> id2 \/ f1 <> f2 ->
  let toggle1 := Bouquets.handleToggle srv id1 f1 v1 in
  let toggle2 := Bouquets.handleToggle srv id2 f2 v2 in
  Bouquets.bouquets (toggle2 (toggle1 st).1).1
  = Bouquets.bouquets (toggle1 (toggle2 st).1).1
  /\ Bouquets.bouquets (toggle1 (toggle1 st).1).1
     = Bouquets.bouquets (toggle1 st).1.
Proof.
  intros H1 H2 Hdiff toggle1 toggle2. unfold toggle1, toggle2.
  rewrite !handleToggle_accepted by done. rewrite !map_map. split.
  - apply map_ext. intros b.
    destruct (Bouquet.id b =? id1) eqn:E1, (Bouquet.id b =? id2) eqn:E2;
      rewrite ?Bouquet_set_id, ?E1, ?E2; try done.
    apply Z.eqb_eq in E1, E2.
    destruct Hdiff as [Hid|Hf]; [congruence|].
    apply Bouquet_set_comm. congruence.
  - apply map_ext. intros b.
    destruct (Bouquet.id b =? id1) eqn:E1; rewrite ?Bouquet_set_id, ?E1; [|done].
    apply Bouquet_set_set.
Qed.

Lemma toggles_commute_and_repeat_harmlessly_witness :
  let hit := Bouquets.handleToggle Sample.bouquetsServer 11 Bouquet.IsHit true in
  let sold := Bouquets.handleToggle Sample.bouquetsServer 11 Bouquet.InStock false in
  Bouquets.bouquets (sold (hit Sample.bouquetsLoaded).1).1
  = Bouquets.bouquets (hit (sold Sample.bouquetsLoaded).1).1.
Proof.
  apply (toggles_commute_and_repeat_harmlessly Sample.bouquetsServer
           Sample.bouquetsLoaded 11 11 Bouquet.IsHit Bouquet.InStock true false);
    [reflexivity | reflexivity | right; discriminate].
Defined.

Lemma same_id_same_bouquet (l : list Bouquet.t) (i j : nat) (x b : Bouquet.t) :
  NoDup (Bouquet.id <$> l) -> l !! i = Some x -> l !! j = Some b ->
  Bouquet.id x = Bouquet.id b -> x = b.
Proof.
  intros Hnd Hx Hb Hid.
  assert (i = j) as ->.
  { eapply (NoDup_lookup _ i j (Bouquet.id x) Hnd).
    - by rewrite list_lookup_fmap, Hx.
    - by rewrite list_lookup_fmap, Hb, Hid. }
  congruence.
Qed.

(** X16.  On a list in which no two bouquets share an id, a click on a
    switch of a row turns that flag of that row over, and a second click
    on the same switch gives back the list as it was (both clicks
    accepted by the server). *)
Theorem switch_clicked_twice_restores_the_list
    (srv : Bouquets.Server) (st : Bouquets.State) (pos : nat)
    (b : Bouquet.t) (f : Bouquet.Field) :
  Bouquets.bouquets st !! pos = Some b ->
  NoDup (Bouquet.id <$> Bouquets.bouquets st) ->
  Bouquets.patchToggle srv (Bouquet.id b) f (negb (Bouquet.get f b)) = Ok tt ->
  Bouquets.patchToggle srv (Bouquet.id b) f (Bouquet.get f b) = Ok tt ->
  let st1 := (Bouquets.switchClick srv b f st).1 in
  exists b1,
    Bouquets.bouquets st1 !! pos = Some b1
    /\ Bouquet.get f b1 = negb (Bouquet.get f b)
    /\ Bouquets.bouquets (Bouquets.switchClick srv b1 f st1).1 = Bouquets.bouquets st.
Proof.
  intros Hb Hnd Hon Hoff st1. unfold st1, Bouquets.switchClick.
  rewrite handleToggle_accepted by done.
  exists (Bouquet.set f (negb (Bouquet.get f b)) b).
  split; [|split].
  - rewrite list_lookup_fmap, Hb. cbn. by rewrite Z.eqb_refl.
  - apply Bouquet_set_get.
  - rewrite Bouquet_set_id, Bouquet_set_get, negb_involutive.
    rewrite handleToggle_accepted by done. cbn [Bouquets.bouquets Bouquets.setBouquets].
    rewrite handleToggle_accepted by done. rewrite map_map.
    apply list_eq. intros i. rewrite list_lookup_fmap.
    destruct (Bouquets.bouquets st !! i) as [x|] eqn:Hx; [|done]. cbn. f_equal.
    destruct (Bouquet.id x =? Bouquet.id b) eqn:Hid;
      rewrite ?Bouquet_set_id, ?Hid; [|done].
    apply Z.eqb_eq in Hid.
    rewrite (same_id_same_bouquet _ i pos x b Hnd Hx Hb Hid).
    by rewrite Bouquet_set_set, Bouquet_set_same.
Qed.

Lemma switch_clicked_twice_restores_the_list_witness :
  let st1 := (Bouquets.switchClick Sample.bouquetsServer Sample.roses Bouquet.IsNew
                Sample.bouquetsLoaded).1 in
  exists b1,
    Bouquets.bouquets st1 !! 0%nat = Some b1
    /\ Bouquet.get Bouquet.IsNew b1 = false
    /\ Bouquets.bouquets
         (Bouquets.switchClick Sample.bouquetsServer b1 Bouquet.IsNew st1).1
       = [Sample.roses; Sample.peonies].
Proof.
  apply (switch_clicked_twice_restores_the_list Sample.bouquetsServer
           Sample.bouquetsLoaded 0 Sample.roses Bouquet.IsNew);
    [reflexivity | | reflexivity | reflexivity].
  vm_compute. apply NoDup_cons. split.
  - rewrite elem_of_cons, elem_of_nil. intros [H|[]]. discriminate H.
  - apply NoDup_singleton.
Defined.

(** X17.  Deleting a bouquet never edits the list on the page: without
    the user's confirmation nothing is sent and nothing changes; with it
    the delete request is sent, the list is asked for again only when
    the server accepted the deletion, and the list on the page afterwards
    is the server's new one when that request is answered and the one
    before in every other case.  The search text and the category are
    left alone. *)
Theorem bouquet_delete_shows_what_the_server_lists
    (srv : Bouquets.Server) (confirmed : bool) (id : Z) (st : Bouquets.State) :
  let st' := (Bouquets.handleDelete srv confirmed id st).1 in
  let sent := (Bouquets.handleDelete srv confirmed id st).2 in
  let accepted :=
    confirmed && (if Bouquets.deleteBouquet srv id is Ok _ then true else false) in
  sent = ((if confirmed then [Bouquets.DeleteBouquet id] else [])
          ++ (if accepted then [Bouquets.GetBouquets] else []))%list
  /\ Bouquets.bouquets st'
     = (if accepted
        then match Bouquets.getBouquets srv with
             | Ok d => d
             | Err _ => Bouquets.bouquets st
             end
        else Bouquets.bouquets st)
  /\ (if confirmed then True else st' = st)
  /\ Bouquets.search st' = Bouquets.search st
  /\ Bouquets.categoryFilter st' = Bouquets.categoryFilter st.
Proof.
  unfold Bouquets.handleDelete, Bouquets.fetchBouquets.
  destruct confirmed; cbn; [|done].
  destruct (Bouquets.deleteBouquet srv id) as [[]|e]; cbn; [|done].
  by destruct (Bouquets.getBouquets srv) as [d|e].
Qed.

Import ConstructorManager.

(** What an accepted add does to the page. *)
Lemma handleAdd_accepted srv st price created :
  Js.isBlank (newName st) = false ->
  Js.isBlank (newPrice st) = false ->
  Loyalty.Number (newPrice st) = Some price ->
  postItem srv (endpoint (activeTab st)) (Js.trim (newName st)) price = Ok created ->
  handleAdd srv st
  = Some (setSubmitting false
            (setNewPrice EmptyString
               (setNewName EmptyString
                  (setData (update (data st) (activeTab st)
                              (data st (activeTab st) ++ [created])%list)
                     (setError EmptyString (setSubmitting true st))))),
          [PostItem (endpoint (activeTab st)) (Js.trim (newName st)) price]).
Proof.
  intros Hname Hprice Hnum Hpost. unfold handleAdd.
  rewrite !JsFacts.truthy_trim, Hname, Hprice, Hnum. cbn. by rewrite Hpost.
Qed.

(** X18.  With a name and a price that are not blank and a price typed
    as a decimal integer that is a safe integer, an add that the server
    accepts sends the trimmed name and the price to the endpoint of the
    active tab, puts the created item at the end of that tab's list,
    leaves the other tabs alone and clears the form. *)
Theorem added_item_goes_last_in_active_tab
    (srv : CatalogServer) (st : State) (price : Z) (created : ConstructorItem.t) :
  Js.isBlank (newName st) = false ->
  Js.isBlank (newPrice st) = false ->
  Loyalty.Number (newPrice st) = Some price ->
  Loyalty.isSafeInteger price = true ->
  postItem srv (endpoint (activeTab st)) (Js.trim (newName st)) price = Ok created ->
  exists st',
    handleAdd srv st
      = Some (st', [PostItem (endpoint (activeTab st)) (Js.trim (newName st)) price])
    /\ data st' (activeTab st) = (data st (activeTab st) ++ [created])%list
    /\ (forall k, k <> activeTab st -> data st' k = data st k)
    /\ activeTab st' = activeTab st
    /\ newName st' = EmptyString
    /\ newPrice st' = EmptyString
    /\ submitting st' = false
    /\ error st' = EmptyString.
Proof.
  intros Hname Hprice Hnum _ Hpost.
  rewrite (handleAdd_accepted srv st price created Hname Hprice Hnum Hpost).
  eexists. split; [reflexivity|]. cbn. rewrite update_same.
  repeat split; try done. intros k Hk. by apply update_other.
Qed.

Lemma added_item_goes_last_in_active_tab_witness :
  exists st',
    handleAdd Sample.catalogServer Sample.constructorForm
      = Some (st', [PostItem "/constructor/packaging" "Satin bow" 120])
    /\ data st' packaging = [Sample.ribbon; Sample.paper; Sample.bow]
    /\ newName st' = EmptyString.
Proof.
  destruct (added_item_goes_last_in_active_tab Sample.catalogServer
              Sample.constructorForm 120 Sample.bow)
    as (st' & Hrun & Hdata & _ & _ & Hname & _);
    [reflexivity | reflexivity | reflexivity | reflexivity | reflexivity |].
  exists st'. split; [exact Hrun | split; [exact Hdata | exact Hname]].
Defined.

(** X19.  The add form does nothing when the name or the price is blank
    (empty or white space of any kind that [trim] strips): no request,
    no change.  When the server rejects an add whose price is typed as
    a decimal integer, the lists are unchanged and the form keeps what
    was typed. *)
Theorem rejected_or_blank_add_keeps_lists_and_form
    (srv : CatalogServer) (st : State) (price : Z) (err : AxiosError) :
  Js.isBlank (newName st) = true \/ Js.isBlank (newPrice st) = true
  \/ (Loyalty.Number (newPrice st) = Some price
      /\ postItem srv (endpoint (activeTab st)) (Js.trim (newName st)) price
         = Err err) ->
  exists st' sent,
    handleAdd srv st = Some (st', sent)
    /\ (Js.isBlank (newName st) = true \/ Js.isBlank (newPrice st) = true ->
        st' = st /\ sent = [])
    /\ (forall k, data st' k = data st k)
    /\ newName st' = newName st
    /\ newPrice st' = newPrice st.
Proof.
  intros H. unfold handleAdd. rewrite !JsFacts.truthy_trim.
  destruct (Js.isBlank (newName st)) eqn:Hname; cbn.
  { eexists _, _. split; [reflexivity|]. by repeat split. }
  destruct (Js.isBlank (newPrice st)) eqn:Hprice; cbn.
  { eexists _, _. split; [reflexivity|]. by repeat split. }
  destruct H as [H|[H|[Hnum Hpost]]]; [done | done |].
  rewrite Hnum. cbn. rewrite Hpost.
  eexists _, _. split; [reflexivity|]. cbn. repeat split; try done.
  all: match goal with H : _ \/ _ |- _ => destruct H; discriminate end.
Qed.

(** A name of a blank and a no-break space (U+00A0). *)
Lemma rejected_or_blank_add_keeps_lists_and_form_witness :
  let blank := String " " (String "194" (String "160" EmptyString)) in
  handleAdd Sample.catalogServer (setNewName blank Sample.constructorForm)
  = Some (setNewName blank Sample.constructorForm, []).
Proof.
  intros blank.
  destruct (rejected_or_blank_add_keeps_lists_and_form Sample.catalogServer
              (setNewName blank Sample.constructorForm) 0 Sample.networkError)
    as (st' & sent & Hrun & Hblank & _); [left; reflexivity|].
  destruct Hblank as [-> ->]; [left; reflexivity|]. exact Hrun.
Defined.

Lemma handleDelete_accepted srv item st :
  deleteItem srv (endpoint (activeTab st)) (ConstructorItem.key item) = Ok tt ->
  data (handleDelete srv true item st).1 (activeTab st)
  = List.filter
      (fun i => negb (bool_decide (ConstructorItem.key i = ConstructorItem.key item)))
      (data st (activeTab st)).
Proof.
  intros H. unfold handleDelete. cbn. rewrite H. cbn. by rewrite update_same.
Qed.

Lemma list_filter_sublist {A} (p : A -> bool) (l : list A) :
  sublist (List.filter p l) l.
Proof.
  induction l as [|x l IH]; cbn; [done|].
  destruct (p x); [by apply sublist_skip | by apply sublist_cons].
Qed.

(** X20.  A confirmed delete that the server accepts removes from the
    list of the active tab every item with the id of the deleted one
    ([id || _id]) and nothing else: the remaining items are exactly the
    others, in their order; the other tabs and the error banner are left
    as they were. *)
Theorem deleted_item_leaves_the_active_tab
    (srv : CatalogServer) (item : ConstructorItem.t) (st : State) :
  deleteItem srv (endpoint (activeTab st)) (ConstructorItem.key item) = Ok tt ->
  let st' := (handleDelete srv true item st).1 in
  (forall i, i ∈ data st' (activeTab st)
             <-> i ∈ data st (activeTab st)
                 /\ ConstructorItem.key i <> ConstructorItem.key item)
  /\ sublist (data st' (activeTab st)) (data st (activeTab st))
  /\ (forall k, k <> activeTab st -> data st' k = data st k)
  /\ error st' = error st
  /\ (handleDelete srv true item st).2
     = [DeleteItem (endpoint (activeTab st)) (ConstructorItem.key item)].
Proof.
  intros Hdel st'. unfold st'. rewrite handleDelete_accepted by done.
  split; [|split; [apply list_filter_sublist|]].
  - intros i. rewrite SearchMoreFacts.list_filter_elem_of.
    rewrite negb_true_iff, bool_decide_eq_false. tauto.
  - unfold handleDelete. cbn. rewrite Hdel. cbn.
    repeat split; try done. intros k Hk. by apply update_other.
Qed.

Lemma deleted_item_leaves_the_active_tab_witness :
  let st' := (handleDelete Sample.catalogServer true Sample.ribbon
                Sample.constructorLoaded).1 in
  sublist (data st' packaging) [Sample.ribbon; Sample.paper]
  /\ data st' flowers = [].
Proof.
  destruct (deleted_item_leaves_the_active_tab Sample.catalogServer Sample.ribbon
              Sample.constructorLoaded eq_refl)
    as (_ & Hsub & Hother & _).
  split; [exact Hsub|]. apply (Hother flowers). discriminate.
Defined.

Lemma filter_other_keys (l : list ConstructorItem.t) (k : option string) :
  Forall (fun i => ConstructorItem.key i <> k) l ->
  List.filter (fun i => negb (bool_decide (ConstructorItem.key i = k))) l = l.
Proof.
  induction 1 as [|i l Hi _ IH]; [done|].
  cbn [List.filter]. rewrite bool_decide_eq_false_2 by done. cbn [negb].
  by rewrite IH.
Qed.

(** X21.  Adding an item and then deleting it gives back the list of the
    active tab as it was, provided no item already in that list has the
    id of the created one (both requests accepted). *)
Theorem add_then_delete_restores_the_tab
    (srv : CatalogServer) (st : State) (price : Z) (created : ConstructorItem.t) :
  Js.isBlank (newName st) = false ->
  Js.isBlank (newPrice st) = false ->
  Loyalty.Number (newPrice st) = Some price ->
  postItem srv (endpoint (activeTab st)) (Js.trim (newName st)) price = Ok created ->
  deleteItem srv (endpoint (activeTab st)) (ConstructorItem.key created) = Ok tt ->
  Forall (fun i => ConstructorItem.key i <> ConstructorItem.key created)
         (data st (activeTab st)) ->
  exists st1 sent,
    handleAdd srv st = Some (st1, sent)
    /\ data (handleDelete srv true created st1).1 (activeTab st)
       = data st (activeTab st).
Proof.
  intros Hname Hprice Hnum Hpost Hdel Hfresh.
  rewrite (handleAdd_accepted srv st price created Hname Hprice Hnum Hpost).
  eexists _, _. split; [reflexivity|].
  set (st1 := setSubmitting false _).
  assert (Htab : activeTab st1 = activeTab st) by done.
  assert (Hdata : data st1 (activeTab st)
                  = (data st (activeTab st) ++ [created])%list).
  { unfold st1. cbn. by rewrite update_same. }
  rewrite <- Htab. rewrite handleDelete_accepted by by rewrite Htab.
  rewrite Htab, Hdata, List.filter_app. cbn [List.filter].
  rewrite bool_decide_eq_true_2 by done. cbn [negb]. rewrite app_nil_r.
  by apply filter_other_keys.
Qed.

Lemma add_then_delete_restores_the_tab_witness :
  exists st1 sent,
    handleAdd Sample.catalogServer Sample.constructorForm = Some (st1, sent)
    /\ data (handleDelete Sample.catalogServer true Sample.bow st1).1 packaging
       = [Sample.ribbon; Sample.paper].
Proof.
  apply (add_then_delete_restores_the_tab Sample.catalogServer
           Sample.constructorForm 120 Sample.bow);
    [reflexivity | reflexivity | reflexivity | reflexivity | reflexivity |].
  repeat constructor; discriminate.
Defined.

(** X22.  A click on the stock switch of a constructor row whose item has
    the flag turns the switch over; on a row whose item came without the
    flag the switch is drawn on and stays on, because the click stores
    [true] (in both cases when the server accepts the update). *)
Theorem stock_switch_flips_unless_flag_is_missing
    (srv : Server) (st : State) (pos : nat) (item : ConstructorItem.t) :
  data st (activeTab st) !! pos = Some item ->
  putItem srv (endpoint (activeTab st)) (ConstructorItem.key item)
    (notInStock item) = Ok tt ->
  exists item',
    data (handleToggleStock srv item st).1 (activeTab st) !! pos = Some item'
    /\ shownInStock item'
       = match ConstructorItem.inStock item with
         | Some _ => negb (shownInStock item)
         | None => shownInStock item
         end
    /\ (ConstructorItem.inStock item = None -> shownInStock item' = true)
    /\ ConstructorItem.inStock item' = Some (notInStock item).
Proof.
  intros Hpos Hput. unfold handleToggleStock. rewrite Hput. cbn.
  rewrite update_same, list_lookup_fmap, Hpos. cbn.
  rewrite bool_decide_eq_true_2 by done.
  eexists. split; [reflexivity|]. unfold shownInStock, notInStock. cbn.
  destruct (ConstructorItem.inStock item) as [[]|]; by repeat split.
Qed.

Lemma stock_switch_flips_unless_flag_is_missing_witness :
  let st := setData (update (fun _ => []) packaging [Sample.bow])
              Sample.constructorLoaded in
  exists item',
    data (handleToggleStock Sample.constructorServer Sample.bow st).1 packaging
      !! 0%nat = Some item'
    /\ shownInStock Sample.bow = true
    /\ shownInStock item' = true.
Proof.
  intros st.
  destruct (stock_switch_flips_unless_flag_is_missing Sample.constructorServer st
              0 Sample.bow eq_refl eq_refl) as (item' & Hpos & _ & Hon & _).
  exists item'. split; [exact Hpos|]. split; [reflexivity|]. by apply Hon.
Defined.

Lemma filterIndex_skip {A} (index from : nat) (l : list A) :
  (index < from)%nat ->
  BouquetForm.filterIndex (fun i => negb (i =? index)%nat) from l = l.
Proof.
  revert from. induction l as [|x l IH]; intros from Hlt; [done|].
  cbn [BouquetForm.filterIndex].
  destruct (Nat.eqb_spec from index); [lia|]. cbn [negb].
  by rewrite IH by lia.
Qed.

Lemma filterIndex_ext {A} (p q : nat -> bool) (from : nat) (l : list A) :
  (forall i, p i = q i) ->
  BouquetForm.filterIndex p from l = BouquetForm.filterIndex q from l.
Proof.
  intros Hpq. revert from. induction l as [|x l IH]; intros from; [done|].
  cbn [BouquetForm.filterIndex]. by rewrite Hpq, !IH.
Qed.

Lemma filterIndex_remove {A} (index from : nat) (l : list A) :
  BouquetForm.filterIndex (fun i => negb (i =? from + index)%nat) from l
  = (take index l ++ drop (S index) l)%list.
Proof.
  revert index from. induction l as [|x l IH]; intros index from.
  - by destruct index.
  - cbn [BouquetForm.filterIndex]. destruct index as [|index].
    + replace (from =? from + 0)%nat with true
        by (symmetry; apply Nat.eqb_eq; lia).
      cbn [negb take drop app]. apply filterIndex_skip. lia.
    + replace (from =? from + S index)%nat with false
        by (symmetry; apply Nat.eqb_neq; lia).
      cbn [negb take drop app]. f_equal. rewrite <- (IH index (S from)).
      apply filterIndex_ext. intros i. do 2 f_equal. lia.
Qed.

(** X29.  Removing an image of the bouquet form by its position removes
    exactly the image at that position and keeps the others in order; a
    position past the end removes nothing; and removing the file that was
    added last gives back the list as it was before the file was
    chosen. *)
Theorem removing_an_image_removes_that_position
    {A} (index : nat) (images : list A) (file : A) :
  BouquetForm.removeImage index images
  = (take index images ++ drop (S index) images)%list
  /\ length (BouquetForm.removeImage index images)
     = (if (index <? length images)%nat then pred (length images)
        else length images)
  /\ BouquetForm.removeImage (length images)
       (BouquetForm.handleFileChange (Some [file]) images) = images
  /\ BouquetForm.handleFileChange None images = images.
Proof.
  assert (Hremove : forall (l : list A) i,
            BouquetForm.removeImage i l = (take i l ++ drop (S i) l)%list).
  { intros l i. unfold BouquetForm.removeImage.
    by rewrite <- (filterIndex_remove i 0 l). }
  split; [apply Hremove|]. split; [|split; [|done]].
  - rewrite Hremove, length_app, length_take, length_drop.
    destruct (Nat.ltb_spec index (length images)); lia.
  - rewrite Hremove. cbn [BouquetForm.handleFileChange].
    rewrite take_app_length, drop_ge; [by rewrite app_nil_r|].
    rewrite length_app. cbn. lia.
Qed.

End CatalogMoreFacts.

(** ** The application shell, the login page and the sidebar *)

Module ShellFacts.
Import Http App.




(** X24.  A login that the server accepts stores the token it answered
    under the key that the start-up check reads, leaves the rest of local
    storage alone and opens the dashboard.  With a token that is not
    empty, a reload that the server accepts keeps the session, and a
    logout removes the token and shows the login screen at every
    location. *)
Theorem login_stores_token_for_reload_and_logout_removes_it
    (srv : Login.Server) (st : Login.State) (app : State) (token : string)
    (check : Server) :
  Login.postLogin srv (Login.login st) (Login.password st) = Ok token ->
  token <> EmptyString ->
  getAuthMe check = Ok tt ->
  let app' := (Login.handleSubmit srv st app).1.2 in
  let reloaded := {| localStorage := localStorage app'; isAuth := None |} in
  localStorage app' !! tokenKey = Some token
  /\ (forall k, k <> tokenKey -> localStorage app' !! k = localStorage app !! k)
  /\ isAuth app' = Some true
  /\ (Login.handleSubmit srv st app).2
     = [Login.PostLogin (Login.login st) (Login.password st)]
  /\ Login.error (Login.handleSubmit srv st app).1.1 = EmptyString
  /\ isAuth (onMount check reloaded).1 = Some true
  /\ localStorage (onMount check reloaded).1 = localStorage app'
  /\ localStorage (logout app') !! tokenKey = None
  /\ (forall path, screen 1 (logout app') path = Some Login).
Proof.
  intros Hlogin Hne Hcheck. unfold Login.handleSubmit. rewrite Hlogin. cbn.
  split; [apply lookup_insert_eq|].
  split; [intros k Hk; by apply lookup_insert_ne|].
  split; [done|]. split; [done|]. split; [done|].
  unfold onMount. cbn. rewrite lookup_insert_eq, Hcheck.
  destruct token as [|c token]; [done|]. cbn.
  split; [done|]. split; [done|]. split; [apply lookup_delete_eq|].
  intros path. destruct (matchesRoute "/login" path); reflexivity.
Qed.

Lemma login_stores_token_for_reload_and_logout_removes_it_witness :
  let srv := {| Login.postLogin := fun _ _ => Ok "fresh-token" |} in
  let st := {| Login.login := "admin"; Login.password := "secret";
               Login.error := EmptyString; Login.loading := false |} in
  let app' := (Login.handleSubmit srv st Sample.staleSession).1.2 in
  localStorage app' !! "rosa_admin_token" = Some "fresh-token"
  /\ isAuth app' = Some true
  /\ localStorage (logout app') !! "rosa_admin_token" = None.
Proof.
  intros srv st app'.
  destruct (login_stores_token_for_reload_and_logout_removes_it srv st
              Sample.staleSession "fresh-token" {| getAuthMe := Ok tt |})
    as (Hstored & _ & Hauth & _ & _ & _ & _ & Hgone & _);
    [reflexivity | discriminate | reflexivity |].
  split; [exact Hstored | split; [exact Hauth | exact Hgone]].
Defined.

(** X25.  A login that the server rejects leaves local storage and the
    authentication flag as they were and shows the [error] of the
    response body when it is not empty, else its [message] when that is
    not empty, else the generic message. *)
Theorem rejected_login_changes_nothing_and_reports
    (srv : Login.Server) (st : Login.State) (app : State) (err : AxiosError) :
  Login.postLogin srv (Login.login st) (Login.password st) = Err err ->
  let shown := Login.error (Login.handleSubmit srv st app).1.1 in
  (Login.handleSubmit srv st app).1.2 = app
  /\ (forall e, errorField err = Some e -> e <> EmptyString -> shown = e)
  /\ (forall m, errorField err = None \/ errorField err = Some EmptyString ->
                messageField err = Some m -> m <> EmptyString -> shown = m)
  /\ (errorField err = None \/ errorField err = Some EmptyString ->
      messageField err = None \/ messageField err = Some EmptyString ->
      shown = "Ошибка входа. Проверьте логин и пароль.")
  /\ Login.loading (Login.handleSubmit srv st app).1.1 = false.
Proof.
  intros Hlogin. unfold Login.handleSubmit. rewrite Hlogin. cbn.
  split; [done|]. split; [|split; [|split; [|done]]].
  - intros e -> He. by apply JsFacts.orElse_Some.
  - intros m [-> | ->] -> Hm; by destruct m.
  - by intros [-> | ->] [-> | ->].
Qed.

Lemma rejected_login_changes_nothing_and_reports_witness :
  let srv := {| Login.postLogin := fun _ _ =>
                  Err (Sample.rejecting (Some "Wrong password")) |} in
  let st := {| Login.login := "admin"; Login.password := "guess";
               Login.error := EmptyString; Login.loading := false |} in
  (Login.handleSubmit srv st Sample.staleSession).1.2 = Sample.staleSession
  /\ Login.error (Login.handleSubmit srv st Sample.staleSession).1.1
     = "Wrong password".
Proof.
  intros srv st.
  destruct (rejected_login_changes_nothing_and_reports srv st Sample.staleSession
              (Sample.rejecting (Some "Wrong password")) eq_refl)
    as (Happ & _ & Hmsg & _).
  split; [exact Happ|].
  apply Hmsg; [left; reflexivity | reflexivity | discriminate].
Defined.

Import Sidebar.

(** X26.  At every location at most one item of the sidebar menu is
    highlighted; the dashboard item is highlighted at [/] only; and at
    the path of a menu item that item, and no other, is highlighted. *)
Theorem sidebar_highlights_at_most_one_item (pathname : string) :
  (length (activeItems pathname) <= 1)%nat
  /\ (active pathname "/" = true <-> pathname = "/")
  /\ Forall (fun item => activeItems item.1 = [item]) menuItems.
Proof.
  split; [|split].
  - unfold activeItems, menuItems, active.
    destruct pathname as [|c0 [|c1 rest]].
    + cbn. lia.
    + cbn. destruct (Ascii.eqb c0 "/"); cbn; lia.
    + cbn [List.filter fst Js.startsWith String.eqb negb andb orb].
      destruct (Ascii.eqb c0 "/"); cbn [andb orb]; [|cbn; lia].
      destruct (Ascii.eqb_spec c1 "b") as [->|]; [cbn; repeat case_match; cbn; lia|].
      destruct (Ascii.eqb_spec c1 "c") as [->|]; [cbn; repeat case_match; cbn; lia|].
      destruct (Ascii.eqb_spec c1 "o") as [->|]; [cbn; repeat case_match; cbn; lia|].
      destruct (Ascii.eqb_spec c1 "l") as [->|]; [cbn; repeat case_match; cbn; lia|].
      destruct (Ascii.eqb_spec c1 "a") as [->|]; [cbn; repeat case_match; cbn; lia|].
      destruct (Ascii.eqb_spec c1 "s") as [->|]; [cbn; repeat case_match; cbn; lia|].
      cbn. lia.
  - unfold active. cbn [negb andb orb String.eqb]. rewrite orb_false_r.
    apply String.eqb_eq.
  - unfold menuItems. repeat (constructor; [vm_compute; reflexivity|]). constructor.
Qed.

Lemma sidebar_highlights_at_most_one_item_witness :
  (length (activeItems "/bouquets/new") <= 1)%nat
  /\ active "/" "/" = true
  /\ activeItems "/orders" = [("/orders", "Заказы")].
Proof.
  destruct (sidebar_highlights_at_most_one_item "/bouquets/new") as (Hlen & _ & Hown).
  destruct (sidebar_highlights_at_most_one_item "/") as (_ & Hroot & _).
  split; [exact Hlen|]. split; [by apply Hroot|].
  unfold menuItems in Hown.
  exact (proj1 (Forall_forall _ _) Hown ("/orders", "Заказы")
           ltac:(in_list)).
Defined.

End ShellFacts.

(** ** More about the broadcast page *)

Module BroadcastMoreFacts.
Import Http Broadcast Js JsFacts.

Lemma orElse_truthy x d : truthy d = true -> truthy (orElse x d) = true.
Proof. intros Hd. destruct x as [[|c s]|]; by cbn. Qed.

(** X27.  A confirmed send of a message that is not blank (that holds
    more than white space of whatever kind) ends with the send button
    free again, keeps the message in the box, and shows
    exactly one of the two banners: the result the server answered and no
    error, or an error (never an empty one) and no result.  A send that
    the user does not confirm changes nothing and sends nothing. *)
Theorem finished_send_shows_exactly_one_banner (srv : Server) (st : State) :
  isBlank (message st) = false ->
  let st' := (handleSend srv true st).1 in
  sending st' = false
  /\ message st' = message st
  /\ match postBroadcast srv (trim (message st)) with
     | Ok d => result st' = Some d /\ error st' = EmptyString
     | Err _ => result st' = None /\ truthy (error st') = true
     end
  /\ handleSend srv false st = (st, []).
Proof.
  intros Hblank. unfold handleSend, beginSend.
  rewrite truthy_trim, Hblank. cbn.
  destruct (postBroadcast srv (trim (message st))); cbn; repeat split.
  by apply orElse_truthy.
Qed.

Lemma finished_send_shows_exactly_one_banner_witness :
  let st' := (handleSend Sample.broadcastServer true (Sample.draft "Sale")).1 in
  sending st' = false /\ message st' = "Sale" /\ error st' = EmptyString.
Proof.
  intros st'.
  destruct (finished_send_shows_exactly_one_banner Sample.broadcastServer
              (Sample.draft "Sale") eq_refl) as (Hfree & Hmsg & Hbanner & _).
  split; [exact Hfree|]. split; [exact Hmsg|].
  exact (proj2 Hbanner).
Defined.

End BroadcastMoreFacts.

(** ** Settings page *)

Module SettingsFacts.
Import Http Settings.

Lemma edit_snoc st edits key value :
  edit st (edits ++ [(key, value)]) = handleChange key value (edit st edits).
Proof. unfold edit. by rewrite fold_left_app. Qed.

(** X28.  After any number of edits, saving sends one request with every
    setting at the value typed last for its key, or at the value loaded
    when the key was not edited; an edit hides the confirmation of an
    earlier save, and saving changes no setting on the page. *)
Theorem saved_settings_carry_the_last_edits
    (srv : Server) (st : State) (edits : list (string * string)) (key : string) :
  let st' := edit st edits in
  (handleSubmit srv st').2 = [PutSettings (settings st')]
  /\ settings st' !! key
     = match last (List.filter (fun kv => String.eqb kv.1 key) edits) with
       | Some kv => Some kv.2
       | None => settings st !! key
       end
  /\ settings (handleSubmit srv st').1 = settings st'
  /\ success st' = (if edits is [] then success st else false).
Proof.
  intros st'. split; [|split; [|split]].
  - unfold handleSubmit. by destruct (putSettings srv _).
  - unfold st'. induction edits as [|[k v] edits IH] using rev_ind; [done|].
    rewrite edit_snoc, List.filter_app. cbn [handleChange settings List.filter fst].
    destruct (String.eqb_spec k key) as [->|Hne].
    + by rewrite lookup_insert_eq, last_snoc.
    + rewrite lookup_insert_ne by done. by rewrite app_nil_r.
  - unfold handleSubmit. by destruct (putSettings srv _).
  - unfold st'. destruct edits as [|e edits] using rev_ind; [done|].
    destruct e as [k v]. rewrite edit_snoc. cbn.
    destruct (success (edit st edits)); by destruct edits.
Qed.

End SettingsFacts.
